(** * OAuth callback handler of the Google Sheets MCP server

    A shallow embedding of [app/api/oauth/callback/route.ts]: the [GET]
    route handler that validates the query parameters of an OAuth
    redirect, looks the [state] up in the process-wide [global.oauthStates]
    map, and exchanges the authorization code for tokens.

    The handler is written in a small state-and-exception monad over a
    [World] made of the shared state map and the chronological log of the
    calls the handler makes on the map and on the network. *)

From stdpp Require Import gmap strings list pretty.

Open Scope string_scope.
Open Scope list_scope.
Open Scope Z_scope.

(** ** JavaScript values *)

(** The values that reach a JSON body or come out of [Response.json()].
    Numbers are the integers (no arithmetic is done on a JSON number by the
    handler; the only numbers it compares are the millisecond timestamps,
    which are integers); [JNumber n] is the Number that the integer [n]
    denotes, that is the double nearest to it. An object lists its own
    properties. *)
#[warnings="-register-all"]
Inductive JsValue : Type :=
| JUndefined
| JNull
| JBool (b : bool)
| JNumber (n : Z)
| JString (s : string)
| JArray (items : list JsValue)
| JObject (props : list (string * JsValue)).

(** What a [throw] carries, as far as the [catch] of the handler can tell:
    [error instanceof Error] with its [message], or anything else. *)
Inductive Thrown : Type :=
| ThrownError (message : string)
| ThrownValue.

(** Result of evaluating code that may throw. *)
Inductive Completion (A : Type) : Type :=
| Normal (a : A)
| Throw (t : Thrown).
Arguments Normal {A} a.
Arguments Throw {A} t.

(** [string | null] and [string | undefined] are [option string]. *)
Definition truthy (v : option string) : bool :=
  match v with
  | Some s => negb (String.eqb s "")
  | None => false
  end.

(** [a || b] on [string | undefined] with a string fallback. *)
Definition or_else (a : option string) (b : string) : string :=
  if truthy a then default "" a else b.

(** A [string | null] already narrowed to [string] by a truthiness test. *)
Definition narrow (v : option string) : string := default "" v.

(** A [string | null] stored in an object literal. *)
Definition js_of_nullable (v : option string) : JsValue :=
  match v with
  | Some s => JString s
  | None => JNull
  end.

(** Property lookup in an object: the first binding of the key. *)
Fixpoint assoc {A : Type} (k : string) (l : list (string * A)) : option A :=
  match l with
  | [] => None
  | (k', v) :: l' => if String.eqb k' k then Some v else assoc k l'
  end.

(** [v.name] for a property name that no primitive wrapper defines:
    reading a property of [null] or [undefined] throws a [TypeError],
    an object yields the property or [undefined], anything else
    [undefined]. *)
Definition get_prop (v : JsValue) (name : string) : Completion JsValue :=
  match v with
  | JNull =>
      Throw (ThrownError ("Cannot read properties of null (reading '" +:+ name +:+ "')"))
  | JUndefined =>
      Throw (ThrownError ("Cannot read properties of undefined (reading '" +:+ name +:+ "')"))
  | JObject props => Normal (default JUndefined (assoc name props))
  | _ => Normal JUndefined
  end.

(** *** Number to string *)

(** The value of the double nearest to the integer [n >= 0], ties to the
    even mantissa, or [None] when that is [Infinity]. *)
Definition to_double (n : Z) : option Z :=
  let bits := Z.log2 n + 1 in
  if bits <=? 53 then Some n
  else
    let e := bits - 53 in
    let q := Z.shiftr n e in
    let r := n - Z.shiftl q e in
    let half := Z.shiftl 1 (e - 1) in
    let q' := if (half <? r) || ((r =? half) && Z.odd q) then q + 1 else q in
    let x := Z.shiftl q' e in
    if Z.shiftl 1 1024 <=? x then None else Some x.

Definition digits (x : Z) : nat := String.length (pretty x).

(** The multiple of a power of ten, with as few significant digits as
    possible, that reads back as the double [x]: the candidates with
    [digits x - j] digits are the two multiples of [10 ^ j] around [x];
    [lo] and [hi] are four times the bounds of the reals that round to
    [x], which are themselves included when the mantissa is even; of two
    candidates the nearer to [x] is taken, and the even one on a tie. *)
Fixpoint shortest_from (x lo hi : Z) (inclusive : bool) (j : nat) : Z :=
  let t := 10 ^ Z.of_nat j in
  let c1 := (x / t) * t in
  let c2 := c1 + t in
  let inside c :=
    if inclusive then (lo <=? 4 * c) && (4 * c <=? hi)
    else (lo <? 4 * c) && (4 * c <? hi) in
  let ok1 := inside c1 && (0 <? c1) in
  let ok2 := inside c2 in
  if ok1 && ok2 then
    if x - c1 <? c2 - x then c1
    else if c2 - x <? x - c1 then c2
    else if Z.even (x / t) then c1 else c2
  else if ok1 then c1
  else if ok2 then c2
  else match j with
       | O => x
       | S j' => shortest_from x lo hi inclusive j'
       end.

(** For a double [x > 0] of integer value: the integer [s * 10 ^ (n - k)]
    of the specification of [Number::toString], [k] minimal. Up to [2 ^ 53]
    every integer is a double and this is [x] itself. *)
Definition shortest (x : Z) : Z :=
  let bits := Z.log2 x + 1 in
  if bits <=? 53 then x
  else
    let e := bits - 53 in
    let m := Z.shiftr x e in
    let up := 2 * Z.shiftl 1 e in
    let down := if m =? Z.shiftl 1 52 then Z.shiftl 1 e else 2 * Z.shiftl 1 e in
    shortest_from x (4 * x - down) (4 * x + up) (Z.even m) (digits x - 1).

Fixpoint strip_zeros (fuel : nat) (v : Z) : Z :=
  match fuel with
  | O => v
  | S fuel' => if (v mod 10 =? 0) && (0 <? v) then strip_zeros fuel' (v / 10) else v
  end.

Definition Number_toString_positive (n : Z) : string :=
  match to_double n with
  | None => "Infinity"
  | Some x =>
      let v := shortest x in
      let exponent := digits v in
      if (exponent <=? 21)%nat then pretty v
      else
        match pretty (strip_zeros exponent v) with
        | String d EmptyString => String d "e+" +:+ pretty (Z.of_nat exponent - 1)
        | String d rest =>
            String d ("." +:+ rest) +:+ "e+" +:+ pretty (Z.of_nat exponent - 1)
        | EmptyString => EmptyString
        end
  end.

(** [String(x)] for the Number of an integer: decimal digits below
    [10 ^ 21], the exponent form from there on, the digits being the
    shortest that read back as the same double. *)
Definition Number_toString (n : Z) : string :=
  if n =? 0 then "0"
  else if n <? 0 then "-" +:+ Number_toString_positive (- n)
  else Number_toString_positive n.

(** *** Value to string *)

(** [String(v)], as a template literal applies it. A primitive always has
    a string. An array is joined: its [toString] is that of
    [Array.prototype], which joins the strings of the elements with commas,
    [null] and [undefined] giving the empty string. An object parsed from
    JSON has no callable property of its own: without an own [toString] it
    inherits the one of [Object.prototype]; with one, the conversion to a
    primitive finds [toString] not callable and [valueOf] either not
    callable (an own one) or returning the object itself (the inherited
    one), and throws a [TypeError]. *)
Fixpoint js_to_string (v : JsValue) : Completion string :=
  match v with
  | JUndefined => Normal "undefined"
  | JNull => Normal "null"
  | JBool true => Normal "true"
  | JBool false => Normal "false"
  | JNumber n => Normal (Number_toString n)
  | JString s => Normal s
  | JArray items =>
      let fix join (l : list JsValue) : Completion (list string) :=
        match l with
        | [] => Normal []
        | x :: l' =>
            match (match x with
                   | JUndefined | JNull => Normal ""
                   | _ => js_to_string x
                   end) with
            | Throw t => Throw t
            | Normal s =>
                match join l' with
                | Throw t => Throw t
                | Normal ss => Normal (s :: ss)
                end
            end
        end in
      match join items with
      | Throw t => Throw t
      | Normal ss => Normal (String.concat "," ss)
      end
  | JObject props =>
      match assoc "toString" props with
      | Some _ => Throw (ThrownError "Cannot convert object to primitive value")
      | None => Normal "[object Object]"
      end
  end.

(** ** The request, the environment, the network *)

(** [new URL(request.url).searchParams]: the decoded query pairs in the
    order of the URL. *)
Record NextRequest : Type := { searchParams : list (string * string) }.

(** [searchParams.get(name)]: the first value of [name], or [null]. *)
Definition searchParams_get (name : string) (request : NextRequest) : option string :=
  assoc name (searchParams request).

(** What [NextResponse.json(body, { status })] builds; the body is the
    object handed to it, before serialization. *)
Record NextResponse : Type := { body : JsValue; status : Z }.

Definition NextResponse_json (body : JsValue) (status : Z) : NextResponse :=
  {| body := body; status := status |}.

(** The arguments of the one [fetch] call of the handler. *)
Record FetchRequest : Type := {
  fetch_url : string;
  fetch_method : string;
  fetch_headers : list (string * string);
  fetch_body : list (string * string)   (* the pairs of the URLSearchParams *)
}.

(** A response of the token endpoint: its status, and what reading the
    body as text or as JSON gives (either read can reject). *)
Record FetchResponse : Type := {
  resp_status : Z;
  resp_text : Completion string;
  resp_json : Completion JsValue
}.

(** [Response.ok]: the status is in the range 200-299. *)
Definition resp_ok (r : FetchResponse) : bool :=
  (200 <=? resp_status r) && (resp_status r <=? 299).

(** The network as the handler sees it: [fetch] rejects or resolves. *)
Definition Network : Type := FetchRequest -> Completion FetchResponse.

(** ** The shared state store *)

(** Modelled from the spec: the declaration of [global.oauthStates] and the
    code that fills it are not among the sources. The values are the
    StateEntry of the data model, with the two fields the handler reads:
    [codeVerifier] and the creation time [timestamp] in milliseconds. *)
Record StateInfo : Type := { codeVerifier : string; timestamp : Z }.

Inductive Event : Type :=
| EvGet (key : string)           (* global.oauthStates.get(key) *)
| EvDelete (key : string)        (* global.oauthStates.delete(key) *)
| EvFetch (req : FetchRequest).  (* fetch(url, init) *)

(** [oauthStates] is [None] while [global.oauthStates] is undefined. *)
Record World : Type := {
  oauthStates : option (gmap string StateInfo);
  events : list Event
}.

Definition log (e : Event) (w : World) : World :=
  {| oauthStates := oauthStates w; events := events w ++ [e] |}.

(** ** The handler monad *)

Definition Handler (A : Type) : Type := World -> Completion A * World.

Definition ret {A : Type} (a : A) : Handler A := fun w => (Normal a, w).

Definition bind {A B : Type} (m : Handler A) (k : A -> Handler B) : Handler B :=
  fun w =>
    match m w with
    | (Normal a, w') => k a w'
    | (Throw t, w') => (Throw t, w')
    end.

(** [try { m } catch (error) { h error }] *)
Definition try_catch {A : Type} (m : Handler A) (h : Thrown -> Handler A) : Handler A :=
  fun w =>
    match m w with
    | (Normal a, w') => (Normal a, w')
    | (Throw t, w') => h t w'
    end.

Definition lift {A : Type} (c : Completion A) : Handler A := fun w => (c, w).

Declare Scope handler_scope.
Delimit Scope handler_scope with handler.
Notation "x <- m ;; k" := (bind m (fun x => k))
  (at level 100, m at next level, right associativity) : handler_scope.
Notation "m ;;; k" := (bind m (fun _ => k))
  (at level 100, right associativity) : handler_scope.
Open Scope handler_scope.

(** [global.oauthStates?.get(state)]: no call at all on an undefined store. *)
Definition oauthStates_get (state : string) : Handler (option StateInfo) :=
  fun w =>
    match oauthStates w with
    | None => (Normal None, w)
    | Some m => (Normal (m !! state), log (EvGet state) w)
    end.

(** [global.oauthStates.delete(state)] *)
Definition oauthStates_delete (state : string) : Handler unit :=
  fun w =>
    match oauthStates w with
    | None =>
        (Throw (ThrownError "Cannot read properties of undefined (reading 'delete')"), w)
    | Some m =>
        (Normal tt,
         {| oauthStates := Some (delete state m);
            events := events w ++ [EvDelete state] |})
    end.

(** [await fetch(url, init)] *)
Definition fetch (network : Network) (req : FetchRequest) : Handler FetchResponse :=
  fun w => (network req, log (EvFetch req) w).

(** ** The route handler *)

Definition TTL : Z := 10 * 60 * 1000.

Definition token_endpoint : string := "https://api.anthropic.com/oauth/token".

(** [storedStateInfo.timestamp < Date.now() - (10 * 60 * 1000)] *)
Definition expired (now : Z) (storedStateInfo : StateInfo) : bool :=
  let tenMinutesAgo := now - TTL in
  timestamp storedStateInfo <? tenMinutesAgo.

(** [process.env.OAUTH_REDIRECT_URI ||
     `${process.env.VERCEL_URL || 'http://localhost:3000'}/api/oauth/callback`] *)
Definition redirectUri (env : gmap string string) : string :=
  or_else (env !! "OAUTH_REDIRECT_URI")
          (or_else (env !! "VERCEL_URL") "http://localhost:3000" +:+ "/api/oauth/callback").

Definition tokenData (env : gmap string string) (code : string)
    (storedStateInfo : StateInfo) : list (string * string) :=
  [ ("grant_type", "authorization_code");
    ("client_id", narrow (env !! "OAUTH_CLIENT_ID"));
    ("client_secret", narrow (env !! "OAUTH_CLIENT_SECRET"));
    ("code", code);
    ("redirect_uri", redirectUri env);
    ("code_verifier", codeVerifier storedStateInfo) ].

Definition token_request (env : gmap string string) (code : string)
    (storedStateInfo : StateInfo) : FetchRequest :=
  {| fetch_url := token_endpoint;
     fetch_method := "POST";
     fetch_headers := [ ("Content-Type", "application/x-www-form-urlencoded");
                        ("Accept", "application/json") ];
     fetch_body := tokenData env code storedStateInfo |}.

(** The body of the [try] block. *)
Definition exchange (env : gmap string string) (network : Network)
    (code state : string) (storedStateInfo : StateInfo) : Handler NextResponse :=
  let clientId := env !! "OAUTH_CLIENT_ID" in
  let clientSecret := env !! "OAUTH_CLIENT_SECRET" in
  if negb (truthy clientId) || negb (truthy clientSecret) then
    ret (NextResponse_json
           (JObject [ ("error", JString "OAuth not configured - missing client credentials") ])
           500)
  else
    tokenResponse <- fetch network (token_request env code storedStateInfo) ;;
    if negb (resp_ok tokenResponse) then
      errorData <- lift (resp_text tokenResponse) ;;
      ret (NextResponse_json
             (JObject [ ("error", JString "Token exchange failed");
                        ("status", JNumber (resp_status tokenResponse));
                        ("details", JString errorData) ])
             400)
    else
      tokenResult <- lift (resp_json tokenResponse) ;;
      (oauthStates_delete state ;;;
       access_token <- lift (get_prop tokenResult "access_token") ;;
       token_type <- lift (get_prop tokenResult "token_type") ;;
       expires_in <- lift (get_prop tokenResult "expires_in") ;;
       refresh_token <- lift (get_prop tokenResult "refresh_token") ;;
       scope <- lift (get_prop tokenResult "scope") ;;
       bearer <- lift (get_prop tokenResult "access_token") ;;
       bearer_text <- lift (js_to_string bearer) ;;
       ret (NextResponse_json
              (JObject
                 [ ("success", JBool true);
                   ("message", JString "OAuth authorization successful!");
                   ("tokens",
                    JObject [ ("access_token", access_token);
                              ("token_type", token_type);
                              ("expires_in", expires_in);
                              ("refresh_token", refresh_token);
                              ("scope", scope) ]);
                   ("instructions",
                    JObject
                      [ ("usage",
                         JString "Use the access_token as a Bearer token in the Authorization header");
                        ("example",
                         JString ("Authorization: Bearer " +:+ bearer_text)) ]) ])
              200)).

(** The [catch] block. *)
Definition on_catch (error : Thrown) : Handler NextResponse :=
  let errorMessage :=
    match error with
    | ThrownError message => message
    | ThrownValue => "Unknown error"
    end in
  ret (NextResponse_json
         (JObject [ ("error", JString "Failed to process OAuth callback");
                    ("details", JString errorMessage) ])
         500).

(** [export async function GET(request)], run at time [now] (the value
    [Date.now()] returns) with the process environment [env]. *)
Definition GET (env : gmap string string) (now : Z) (network : Network)
    (request : NextRequest) : Handler NextResponse :=
  let code := searchParams_get "code" request in
  let state := searchParams_get "state" request in
  let error := searchParams_get "error" request in
  if truthy error then
    ret (NextResponse_json
           (JObject [ ("error", JString "OAuth authorization failed");
                      ("details", js_of_nullable error);
                      ("description",
                       js_of_nullable (searchParams_get "error_description" request)) ])
           400)
  else if negb (truthy code) || negb (truthy state) then
    ret (NextResponse_json
           (JObject [ ("error", JString "Missing required OAuth parameters");
                      ("missing",
                       JObject [ ("code", JBool (negb (truthy code)));
                                 ("state", JBool (negb (truthy state))) ]) ])
           400)
  else
    let code := narrow code in
    let state := narrow state in
    storedStateInfo <- oauthStates_get state ;;
    match storedStateInfo with
    | None =>
        ret (NextResponse_json
               (JObject [ ("error", JString "Invalid or expired OAuth state") ]) 400)
    | Some storedStateInfo =>
        if expired now storedStateInfo then
          (oauthStates_delete state ;;;
           ret (NextResponse_json
                  (JObject [ ("error", JString "OAuth state expired") ]) 400))
        else
          try_catch (exchange env network code state storedStateInfo) on_catch
    end.

(** ** Serving several callbacks *)

(** One callback as the server receives it: the request, the clock value
    the handler reads, and how the network answers its [fetch]. *)
Record Callback : Type := {
  cb_now : Z;
  cb_network : Network;
  cb_request : NextRequest
}.

(** The callbacks of a list handled one after the other on the shared
    world (each runs to completion before the next starts). *)
Fixpoint serve (env : gmap string string) (cbs : list Callback) (w : World) : World :=
  match cbs with
  | [] => w
  | cb :: cbs' => serve env cbs' (GET env (cb_now cb) (cb_network cb) (cb_request cb) w).2
  end.

(** ** Vocabulary of the statements *)

(** The request passes both parameter checks of the handler. *)
Definition validated (request : NextRequest) : bool :=
  negb (truthy (searchParams_get "error" request))
  && truthy (searchParams_get "code" request)
  && truthy (searchParams_get "state" request).

Definition code_of (request : NextRequest) : string :=
  narrow (searchParams_get "code" request).

Definition state_of (request : NextRequest) : string :=
  narrow (searchParams_get "state" request).

(** Both client credentials are set (and not empty). *)
Definition configured (env : gmap string string) : bool :=
  truthy (env !! "OAUTH_CLIENT_ID") && truthy (env !! "OAUTH_CLIENT_SECRET").

(** The [fetch] calls of a log, in order. *)
Fixpoint fetches (l : list Event) : list FetchRequest :=
  match l with
  | [] => []
  | EvFetch req :: l' => req :: fetches l'
  | _ :: l' => fetches l'
  end.

(** The keys a log deletes, in order. *)
Fixpoint deletions (l : list Event) : list string :=
  match l with
  | [] => []
  | EvDelete k :: l' => k :: deletions l'
  | _ :: l' => deletions l'
  end.

(** What the store holds under [state]; nothing when it is undefined. *)
Definition entry (w : World) (state : string) : option StateInfo :=
  match oauthStates w with
  | Some m => m !! state
  | None => None
  end.

(** The responses, named as the error taxonomy names them. *)
Definition OAuthProviderError (details : string) (description : option string) : NextResponse :=
  NextResponse_json
    (JObject [ ("error", JString "OAuth authorization failed");
               ("details", JString details);
               ("description", js_of_nullable description) ])
    400.

Definition MissingParams (code_missing state_missing : bool) : NextResponse :=
  NextResponse_json
    (JObject [ ("error", JString "Missing required OAuth parameters");
               ("missing", JObject [ ("code", JBool code_missing);
                                     ("state", JBool state_missing) ]) ])
    400.

Definition InvalidState : NextResponse :=
  NextResponse_json (JObject [ ("error", JString "Invalid or expired OAuth state") ]) 400.

Definition ExpiredState : NextResponse :=
  NextResponse_json (JObject [ ("error", JString "OAuth state expired") ]) 400.

Definition NotConfigured : NextResponse :=
  NextResponse_json
    (JObject [ ("error", JString "OAuth not configured - missing client credentials") ]) 500.

Definition TokenExchangeFailed (provider_status : Z) (provider_body : string) : NextResponse :=
  NextResponse_json
    (JObject [ ("error", JString "Token exchange failed");
               ("status", JNumber provider_status);
               ("details", JString provider_body) ])
    400.

Definition CallbackFailed (details : string) : NextResponse :=
  NextResponse_json
    (JObject [ ("error", JString "Failed to process OAuth callback");
               ("details", JString details) ])
    500.

(** [obj.name] on a parsed token result that is not [null]. *)
Definition field (tokenResult : JsValue) (name : string) : JsValue :=
  match tokenResult with
  | JObject props => default JUndefined (assoc name props)
  | _ => JUndefined
  end.

(** The success response for the parsed [tokenResult], [bearer_text] being
    the string the template literal gives for its [access_token]. *)
Definition Success (tokenResult : JsValue) (bearer_text : string) : NextResponse :=
  NextResponse_json
    (JObject
       [ ("success", JBool true);
         ("message", JString "OAuth authorization successful!");
         ("tokens",
          JObject [ ("access_token", field tokenResult "access_token");
                    ("token_type", field tokenResult "token_type");
                    ("expires_in", field tokenResult "expires_in");
                    ("refresh_token", field tokenResult "refresh_token");
                    ("scope", field tokenResult "scope") ]);
         ("instructions",
          JObject
            [ ("usage",
               JString "Use the access_token as a Bearer token in the Authorization header");
              ("example", JString ("Authorization: Bearer " +:+ bearer_text)) ]) ])
    200.

(** ** Fixtures: the scenarios of the testable properties *)

Definition env_demo : gmap string string :=
  {[ "OAUTH_CLIENT_ID" := "client-1";
     "OAUTH_CLIENT_SECRET" := "secret-1";
     "OAUTH_REDIRECT_URI" := "https://app.example/api/oauth/callback" ]}.

(** Credentials missing altogether. *)
Definition env_bare : gmap string string := {[ "VERCEL_URL" := "https://app.example" ]}.

Definition info_s1 : StateInfo := {| codeVerifier := "v1"; timestamp := 0 |}.
Definition info_s2 : StateInfo := {| codeVerifier := "v2"; timestamp := 0 |}.
Definition info_s3 : StateInfo := {| codeVerifier := "v3"; timestamp := 0 |}.

(** The store after [put("s1","v1")], [put("s2","v2")], [put("s3","v3")]
    at time 0, and nothing logged yet. *)
Definition world_demo : World :=
  {| oauthStates := Some {[ "s1" := info_s1; "s2" := info_s2; "s3" := info_s3 ]};
     events := [] |}.

(** A process in which [global.oauthStates] was never assigned. *)
Definition world_undefined : World := {| oauthStates := None; events := [] |}.

Definition callback_request (code state : string) : NextRequest :=
  {| searchParams := [ ("code", code); ("state", state) ] |}.

Definition token_json : JsValue :=
  JObject [ ("access_token", JString "tok");
            ("token_type", JString "bearer");
            ("expires_in", JNumber 3600) ].

Definition response_ok : FetchResponse :=
  {| resp_status := 200;
     resp_text := Normal "{...}";
     resp_json := Normal token_json |}.

Definition response_rejected : FetchResponse :=
  {| resp_status := 400;
     resp_text := Normal "invalid_grant";
     resp_json := Throw (ThrownError "Unexpected token i in JSON at position 0") |}.

(** A 2xx response whose [access_token] is an object with a property
    [toString] of its own. *)
Definition token_json_unprintable : JsValue :=
  JObject [ ("access_token", JObject [ ("toString", JNumber 1) ]) ].

Definition response_unprintable : FetchResponse :=
  {| resp_status := 200;
     resp_text := Normal "{...}";
     resp_json := Normal token_json_unprintable |}.

Definition net_unprintable : Network := fun _ => Normal response_unprintable.

(** A 2xx response whose body is the JSON text [null]. *)
Definition response_null : FetchResponse :=
  {| resp_status := 200; resp_text := Normal "null"; resp_json := Normal JNull |}.

Definition net_null : Network := fun _ => Normal response_null.
Definition net_ok : Network := fun _ => Normal response_ok.
Definition net_rejecting : Network := fun _ => Normal response_rejected.
Definition net_down : Network := fun _ => Throw (ThrownError "fetch failed").

(** ** Every path through the handler *)

(** The [errorMessage] of the [catch] blocks of the routes, over their
    fallback text. *)
Definition errorMessage_of (fallback : string) (error : Thrown) : string :=
  match error with
  | ThrownError message => message
  | ThrownValue => fallback
  end.

(** The world once [state] was deleted, with what the run logged. *)
Definition consumed (state : string) (logged : list Event) (w : World) : World :=
  {| oauthStates := delete state <$> oauthStates w;
     events := events w ++ logged |}.

(** The runs of [GET], one constructor per [return] of the source, each with
    the conditions that lead to it and the world it leaves. *)
Inductive GET_path (env : gmap string string) (now : Z) (network : Network)
    (request : NextRequest) (w : World) : Completion NextResponse * World -> Prop :=
| path_provider_error (e : string) :
    searchParams_get "error" request = Some e ->
    e <> "" ->
    GET_path env now network request w
      (Normal (OAuthProviderError e (searchParams_get "error_description" request)), w)
| path_missing_params :
    truthy (searchParams_get "error" request) = false ->
    validated request = false ->
    GET_path env now network request w
      (Normal (MissingParams (negb (truthy (searchParams_get "code" request)))
                             (negb (truthy (searchParams_get "state" request)))), w)
| path_invalid_state :
    validated request = true ->
    entry w (state_of request) = None ->
    GET_path env now network request w
      (Normal InvalidState,
       match oauthStates w with
       | None => w
       | Some _ => log (EvGet (state_of request)) w
       end)
| path_expired_state (info : StateInfo) :
    validated request = true ->
    entry w (state_of request) = Some info ->
    expired now info = true ->
    GET_path env now network request w
      (Normal ExpiredState,
       consumed (state_of request)
         [ EvGet (state_of request); EvDelete (state_of request) ] w)
| path_not_configured (info : StateInfo) :
    validated request = true ->
    entry w (state_of request) = Some info ->
    expired now info = false ->
    configured env = false ->
    GET_path env now network request w
      (Normal NotConfigured, log (EvGet (state_of request)) w)
| path_fetch_throws (info : StateInfo) (t : Thrown) :
    validated request = true ->
    entry w (state_of request) = Some info ->
    expired now info = false ->
    configured env = true ->
    network (token_request env (code_of request) info) = Throw t ->
    GET_path env now network request w
      (Normal (CallbackFailed (errorMessage_of "Unknown error" t)),
       log (EvFetch (token_request env (code_of request) info))
         (log (EvGet (state_of request)) w))
| path_rejected (info : StateInfo) (r : FetchResponse) (errorData : string) :
    validated request = true ->
    entry w (state_of request) = Some info ->
    expired now info = false ->
    configured env = true ->
    network (token_request env (code_of request) info) = Normal r ->
    resp_ok r = false ->
    resp_text r = Normal errorData ->
    GET_path env now network request w
      (Normal (TokenExchangeFailed (resp_status r) errorData),
       log (EvFetch (token_request env (code_of request) info))
         (log (EvGet (state_of request)) w))
| path_rejected_unreadable (info : StateInfo) (r : FetchResponse) (t : Thrown) :
    validated request = true ->
    entry w (state_of request) = Some info ->
    expired now info = false ->
    configured env = true ->
    network (token_request env (code_of request) info) = Normal r ->
    resp_ok r = false ->
    resp_text r = Throw t ->
    GET_path env now network request w
      (Normal (CallbackFailed (errorMessage_of "Unknown error" t)),
       log (EvFetch (token_request env (code_of request) info))
         (log (EvGet (state_of request)) w))
| path_unparsable (info : StateInfo) (r : FetchResponse) (t : Thrown) :
    validated request = true ->
    entry w (state_of request) = Some info ->
    expired now info = false ->
    configured env = true ->
    network (token_request env (code_of request) info) = Normal r ->
    resp_ok r = true ->
    resp_json r = Throw t ->
    GET_path env now network request w
      (Normal (CallbackFailed (errorMessage_of "Unknown error" t)),
       log (EvFetch (token_request env (code_of request) info))
         (log (EvGet (state_of request)) w))
| path_no_token_object (info : StateInfo) (r : FetchResponse)
    (tokenResult : JsValue) (t : Thrown) :
    validated request = true ->
    entry w (state_of request) = Some info ->
    expired now info = false ->
    configured env = true ->
    network (token_request env (code_of request) info) = Normal r ->
    resp_ok r = true ->
    resp_json r = Normal tokenResult ->
    get_prop tokenResult "access_token" = Throw t ->
    GET_path env now network request w
      (Normal (CallbackFailed (errorMessage_of "Unknown error" t)),
       consumed (state_of request)
         [ EvGet (state_of request);
           EvFetch (token_request env (code_of request) info);
           EvDelete (state_of request) ] w)
| path_no_bearer_text (info : StateInfo) (r : FetchResponse)
    (tokenResult : JsValue) (t : Thrown) :
    validated request = true ->
    entry w (state_of request) = Some info ->
    expired now info = false ->
    configured env = true ->
    network (token_request env (code_of request) info) = Normal r ->
    resp_ok r = true ->
    resp_json r = Normal tokenResult ->
    tokenResult <> JNull ->
    tokenResult <> JUndefined ->
    js_to_string (field tokenResult "access_token") = Throw t ->
    GET_path env now network request w
      (Normal (CallbackFailed (errorMessage_of "Unknown error" t)),
       consumed (state_of request)
         [ EvGet (state_of request);
           EvFetch (token_request env (code_of request) info);
           EvDelete (state_of request) ] w)
| path_success (info : StateInfo) (r : FetchResponse) (tokenResult : JsValue)
    (bearer_text : string) :
    validated request = true ->
    entry w (state_of request) = Some info ->
    expired now info = false ->
    configured env = true ->
    network (token_request env (code_of request) info) = Normal r ->
    resp_ok r = true ->
    resp_json r = Normal tokenResult ->
    tokenResult <> JNull ->
    tokenResult <> JUndefined ->
    js_to_string (field tokenResult "access_token") = Normal bearer_text ->
    GET_path env now network request w
      (Normal (Success tokenResult bearer_text),
       consumed (state_of request)
         [ EvGet (state_of request);
           EvFetch (token_request env (code_of request) info);
           EvDelete (state_of request) ] w).

(** * The MCP routes

    [app/api/mcp/route.ts] of the Google Sheets server, and of the demo
    server, whose API-key check and wrapper are the same: the check in
    front of the MCP handler, and the tool callbacks of the Google Sheets
    server. Strings are sequences of bytes (UTF-8), so the emoji of the
    messages are the bytes of their encoding. *)

Module Mcp.

Definition nl : string := String (Ascii.ascii_of_nat 10) "".

Fixpoint String_drop (n : nat) (s : string) : string :=
  match n, s with
  | O, _ => s
  | S n', String _ s' => String_drop n' s'
  | S _, EmptyString => EmptyString
  end.

(** [s.replace(pattern, replacement)] with a string pattern: the first
    occurrence of [pattern] in [s], if any, is replaced (the replacement is
    taken literally: the [$] patterns of a replacement string are not
    modelled, the replacement of the source being empty). *)
Fixpoint String_replace (s pattern replacement : string) : string :=
  if String.prefix pattern s then
    replacement +:+ String_drop (String.length pattern) s
  else
    match s with
    | EmptyString => EmptyString
    | String c s' => String c (String_replace s' pattern replacement)
    end.

(** [s.includes(pattern)] *)
Fixpoint String_includes (s pattern : string) : bool :=
  String.prefix pattern s
  || match s with
     | EmptyString => false
     | String _ s' => String_includes s' pattern
     end.

(** The HTTP whitespace bytes: tab, line feed, carriage return, space. *)
Definition http_whitespace (c : Ascii.ascii) : bool :=
  let n := Ascii.nat_of_ascii c in
  Nat.eqb n 9 || Nat.eqb n 10 || Nat.eqb n 13 || Nat.eqb n 32.

Fixpoint strip_leading (s : string) : string :=
  match s with
  | EmptyString => EmptyString
  | String c s' => if http_whitespace c then strip_leading s' else s
  end.

Fixpoint strip_trailing (s : string) : string :=
  match s with
  | EmptyString => EmptyString
  | String c s' =>
      match strip_trailing s' with
      | EmptyString => if http_whitespace c then EmptyString else String c EmptyString
      | rest => String c rest
      end
  end.

(** A header value as [Headers] gives it: without the HTTP whitespace at
    its two ends. *)
Definition normalize (value : string) : string :=
  strip_trailing (strip_leading value).

(** The request of the MCP routes, as far as they read it: its headers by
    lower-case name, each with its value as it was sent (the values of a
    repeated header joined). *)
Record NextRequest : Type := { headers : gmap string string }.

(** [request.headers.get(name)] for a lower-case [name]: the normalized
    value, or [null]. *)
Definition headers_get (name : string) (request : NextRequest) : option string :=
  normalize <$> headers request !! name.

(** [new Response(body, { status, headers })] *)
Record Response : Type := {
  res_body : string;
  res_status : Z;
  res_headers : list (string * string)
}.

(** [function authenticateRequest(request)] *)
Definition authenticateRequest (env : gmap string string) (request : NextRequest) : bool :=
  let apiKey := env !! "MCP_API_KEY" in
  if negb (truthy apiKey) then
    true
  else
    let authHeader := headers_get "authorization" request in
    let stripped := (fun h => String_replace h "Bearer " "") <$> authHeader in
    let providedKey :=
      if truthy stripped then stripped else headers_get "x-api-key" request in
    match providedKey with
    | Some key => String.eqb key (narrow apiKey)
    | None => false
    end.

(** The arguments of a [fetch] of the tools. *)
Record FetchCall : Type := {
  call_url : string;
  call_method : string;
  call_headers : list (string * string);
  call_body : option string
}.

(** The response of the Apps Script webhook. *)
Record FetchResult : Type := {
  result_status : Z;
  result_statusText : string;
  result_text : Completion string
}.

Definition result_ok (r : FetchResult) : bool :=
  (200 <=? result_status r) && (result_status r <=? 299).

Definition Webhook : Type := FetchCall -> Completion FetchResult.

(** What a tool callback returns: [{ content: [{ type: 'text', text }] }]. *)
Record TextContent : Type := { type : string; text : string }.
Record ToolResult : Type := { content : list TextContent }.

(** The arguments of [append_job_row] once the zod schema accepted them. *)
Record JobArgs : Type := {
  company : string;
  role : string;
  description : option string;
  date : option string;
  source : option string;
  jobType : option string
}.

(** A tool run: how the callback completes, and the [fetch] calls it
    made. *)
Definition ToolRun : Type := Completion ToolResult * list FetchCall.

Section Routes.

(** [JSON.stringify(value, null, space)], taken as given. *)
Variable JSON_stringify : JsValue -> option Z -> string.

(** The handler [createMcpHandler] returns, taken as given. *)
Variable handler : NextRequest -> Response.

(** [async function authenticatedHandler(request)] *)
Definition authenticatedHandler (env : gmap string string) (request : NextRequest) : Response :=
  if negb (authenticateRequest env request) then
    {| res_body :=
         JSON_stringify
           (JObject
              [ ("error",
                 JString "Unauthorized. Provide API key via Authorization header or x-api-key header.") ])
           None;
       res_status := 401;
       res_headers := [ ("Content-Type", "application/json") ] |}
  else
    handler request.

(** The 401 response of the wrapper, named for the statements. *)
Definition unauthorized : Response :=
  {| res_body :=
       JSON_stringify
         (JObject
            [ ("error",
               JString "Unauthorized. Provide API key via Authorization header or x-api-key header.") ])
         None;
     res_status := 401;
     res_headers := [ ("Content-Type", "application/json") ] |}.

Definition payload (secretKey : string) (args : JobArgs) : JsValue :=
  JObject [ ("secret", JString secretKey);
            ("company", JString (company args));
            ("role", JString (role args));
            ("description", JString (or_else (description args) ""));
            ("date", JString (or_else (date args) ""));
            ("source", JString (or_else (source args) ""));
            ("type", JString (or_else (jobType args) "")) ].

Definition append_call (scriptUrl secretKey : string) (args : JobArgs) : FetchCall :=
  {| call_url := scriptUrl;
     call_method := "POST";
     call_headers := [ ("Content-Type", "application/json") ];
     call_body := Some (JSON_stringify (payload secretKey args) None) |}.

(** The callback of the tool [append_job_row]. *)
Definition append_job_row (env : gmap string string) (network : Webhook)
    (args : JobArgs) : ToolRun :=
  let scriptUrl := env !! "SCRIPT_URL" in
  let secretKey := env !! "SECRET_KEY" in
  if negb (truthy scriptUrl) then
    (Throw (ThrownError "SCRIPT_URL environment variable is not set"), [])
  else if negb (truthy secretKey) then
    (Throw (ThrownError "SECRET_KEY environment variable is not set"), [])
  else
    let call := append_call (narrow scriptUrl) (narrow secretKey) args in
    let tried : Completion ToolResult :=
      match network call with
      | Throw error => Throw error
      | Normal response =>
          if negb (result_ok response) then
            Throw (ThrownError
                     ("Google Apps Script request failed: "
                      +:+ pretty (result_status response) +:+ " "
                      +:+ result_statusText response))
          else
            match result_text response with
            | Throw error => Throw error
            | Normal responseText =>
                Normal
                  {| content :=
                       [ {| type := "text";
                            text := "✅ Job successfully added to Google Sheet!"
                                    +:+ nl +:+ nl +:+ "Response: " +:+ responseText |} ] |}
            end
      end in
    (match tried with
     | Normal result => Normal result
     | Throw error =>
         Normal
           {| content :=
                [ {| type := "text";
                     text := "❌ Failed to add job to Google Sheet: "
                             +:+ errorMessage_of "Unknown error occurred" error |} ] |}
     end,
     [ call ]).

(** The callback of the tool [health_check], [timestamp] being
    [new Date().toISOString()]. *)
Definition health_check (env : gmap string string) (timestamp : string) : ToolRun :=
  let scriptUrl := env !! "SCRIPT_URL" in
  let secretKey := env !! "SECRET_KEY" in
  let checks :=
    JObject [ ("server", JString "OK");
              ("scriptUrl", JString (if truthy scriptUrl then "Configured" else "Missing"));
              ("secretKey", JString (if truthy secretKey then "Configured" else "Missing"));
              ("timestamp", JString timestamp) ] in
  (Normal
     {| content :=
          [ {| type := "text";
               text := "🔍 Google Sheets MCP Server Health Check:"
                       +:+ nl +:+ nl +:+ JSON_stringify checks (Some 2) |} ] |},
   []).

Definition options_call (scriptUrl : string) : FetchCall :=
  {| call_url := scriptUrl;
     call_method := "OPTIONS";
     call_headers := [];
     call_body := None |}.

(** The callback of the tool [test_connection]. *)
Definition test_connection (env : gmap string string) (network : Webhook) : ToolRun :=
  let scriptUrl := env !! "SCRIPT_URL" in
  if negb (truthy scriptUrl) then
    (Normal
       {| content :=
            [ {| type := "text";
                 text := "❌ Cannot test connection: SCRIPT_URL not configured" |} ] |},
     [])
  else
    let call := options_call (narrow scriptUrl) in
    (match network call with
     | Normal response =>
         Normal
           {| content :=
                [ {| type := "text";
                     text := "🔗 Connection test result:" +:+ nl +:+ nl
                             +:+ "URL: " +:+ narrow scriptUrl +:+ nl
                             +:+ "Status: " +:+ pretty (result_status response) +:+ nl
                             +:+ "Reachable: "
                             +:+ (if result_ok response then "Yes" else "No") |} ] |}
     | Throw error =>
         Normal
           {| content :=
                [ {| type := "text";
                     text := "❌ Connection test failed: "
                             +:+ errorMessage_of "Unknown error" error |} ] |}
     end,
     [ call ]).

End Routes.

(** *** Fixtures *)

(** A serializer to run the examples with: the compact form of an object
    of strings that need no escaping. *)
Definition quote : string := String (Ascii.ascii_of_nat 34) "".

Definition stringify_demo (value : JsValue) (space : option Z) : string :=
  let text v := match v with JString s => s | _ => "" end in
  match value with
  | JObject props =>
      "{" +:+ String.concat ","
                (map (fun '(k, v) => quote +:+ k +:+ quote +:+ ":"
                                     +:+ quote +:+ text v +:+ quote) props)
      +:+ "}"
  | _ => text value
  end.

Definition env_key : gmap string string :=
  {[ "MCP_API_KEY" := "k-123"; "SCRIPT_URL" := "https://script.example/exec";
     "SECRET_KEY" := "sheet-secret" ]}.

Definition env_open : gmap string string := {[ "SCRIPT_URL" := "https://script.example/exec" ]}.

Definition env_other : gmap string string :=
  {[ "SCRIPT_URL" := "https://other.example/exec"; "SECRET_KEY" := "another" ]}.

Definition request_with (hs : list (string * string)) : NextRequest :=
  {| headers := list_to_map hs |}.

Definition handler_demo : NextRequest -> Response :=
  fun _ => {| res_body := "mcp"; res_status := 200; res_headers := [] |}.

Definition job_demo : JobArgs :=
  {| company := "Acme"; role := "Engineer"; description := None;
     date := Some "01/02/2025"; source := None; jobType := Some "" |}.

Definition job_demo_filled : JobArgs :=
  {| company := "Acme"; role := "Engineer"; description := Some "";
     date := Some "01/02/2025"; source := Some ""; jobType := None |}.

Definition webhook_ok : Webhook :=
  fun _ => Normal {| result_status := 200; result_statusText := "OK";
                     result_text := Normal "Success" |}.

Definition webhook_denied : Webhook :=
  fun _ => Normal {| result_status := 403; result_statusText := "Forbidden";
                     result_text := Normal "denied" |}.

Definition webhook_down : Webhook := fun _ => Throw (ThrownError "fetch failed").

End Mcp.

(** ** The string forms, on examples *)

Example Number_toString_small : Number_toString 3600 = "3600".
Proof. vm_compute. reflexivity. Qed.

Example Number_toString_negative : Number_toString (-42) = "-42".
Proof. vm_compute. reflexivity. Qed.

(** Above [2 ^ 53] the digits are the shortest that read back. *)
Example Number_toString_2_60 : Number_toString (2 ^ 60) = "1152921504606847000".
Proof. vm_compute. reflexivity. Qed.

(** An integer that is no double is the double nearest to it. *)
Example Number_toString_rounds : Number_toString (2 ^ 53 + 1) = "9007199254740992".
Proof. vm_compute. reflexivity. Qed.

Example Number_toString_below_1e21 :
  Number_toString (10 ^ 21 - 131072) = "999999999999999900000".
Proof. vm_compute. reflexivity. Qed.

Example Number_toString_1e21 : Number_toString (10 ^ 21) = "1e+21".
Proof. vm_compute. reflexivity. Qed.

Example Number_toString_2_70 : Number_toString (2 ^ 70) = "1.1805916207174113e+21".
Proof. vm_compute. reflexivity. Qed.

Example Number_toString_infinity : Number_toString (2 ^ 1024) = "Infinity".
Proof. vm_compute. reflexivity. Qed.

Example js_to_string_array :
  js_to_string (JArray [ JNumber 1; JNull; JArray [ JString "a"; JBool true ];
                         JObject [ ("a", JNumber 1) ] ])
  = Normal "1,,a,true,[object Object]".
Proof. vm_compute. reflexivity. Qed.

Example js_to_string_own_toString :
  js_to_string (JArray [ JNumber 1; JObject [ ("toString", JNull) ] ])
  = Throw (ThrownError "Cannot convert object to primitive value").
Proof. vm_compute. reflexivity. Qed.

(** ** The paths through the handler *)

Ltac run :=
  unfold bind, ret, lift, fetch, try_catch, on_catch, oauthStates_get,
    oauthStates_delete, log; simpl.

Lemma truthy_narrow (v : option string) : truthy v = true -> v = Some (narrow v).
Proof. destruct v as [s|]; simpl; [reflexivity | discriminate]. Qed.

Lemma validated_inv (request : NextRequest) :
  validated request = true ->
  truthy (searchParams_get "error" request) = false /\
  truthy (searchParams_get "code" request) = true /\
  truthy (searchParams_get "state" request) = true.
Proof.
  unfold validated. intros H.
  apply andb_prop in H as [H Hs]. apply andb_prop in H as [He Hc].
  apply negb_true_iff in He. auto.
Qed.

Lemma get_prop_field (v : JsValue) (name : string) :
  v <> JNull -> v <> JUndefined -> get_prop v name = Normal (field v name).
Proof. destruct v; simpl; congruence. Qed.

Section Validation.

Variable env : gmap string string.
Variable now : Z.
Variable network : Network.
Variable request : NextRequest.
Variable w : World.

(** After the two parameter checks the handler is the lookup and what
    follows it. *)
Lemma GET_validated :
  validated request = true ->
  GET env now network request w =
  (storedStateInfo <- oauthStates_get (state_of request) ;;
   match storedStateInfo with
   | None => ret InvalidState
   | Some storedStateInfo =>
       if expired now storedStateInfo then
         (oauthStates_delete (state_of request) ;;; ret ExpiredState)
       else
         try_catch
           (exchange env network (code_of request) (state_of request) storedStateInfo)
           on_catch
   end) w.
Proof.
  intros H. apply validated_inv in H as (He & Hc & Hs).
  unfold GET. rewrite He, Hc, Hs. reflexivity.
Qed.

Lemma GET_unknown :
  validated request = true ->
  entry w (state_of request) = None ->
  GET env now network request w =
  (Normal InvalidState,
   match oauthStates w with
   | None => w
   | Some _ => log (EvGet (state_of request)) w
   end).
Proof.
  intros Hv Hu. rewrite GET_validated by assumption.
  unfold entry in Hu. run.
  destruct (oauthStates w) as [m|]; [rewrite Hu |]; reflexivity.
Qed.

(** A request stopped by a parameter check is answered without a look at
    the world. *)
Lemma GET_not_validated (w' : World) :
  validated request = false ->
  GET env now network request w = ((GET env now network request w').1, w).
Proof.
  unfold validated, GET. intros H.
  destruct (truthy (searchParams_get "error" request)); [reflexivity |].
  destruct (truthy (searchParams_get "code" request)); [| reflexivity].
  destruct (truthy (searchParams_get "state" request)); [discriminate | reflexivity].
Qed.

End Validation.

Section Paths.

Variable env : gmap string string.
Variable now : Z.
Variable network : Network.
Variable request : NextRequest.
Variable w : World.
Variable m : gmap string StateInfo.
Variable info : StateInfo.
Hypothesis Hvalid : validated request = true.
Hypothesis Hstore : oauthStates w = Some m.
Hypothesis Hentry : m !! state_of request = Some info.

Lemma GET_expired :
  expired now info = true ->
  GET env now network request w =
  (Normal ExpiredState,
   {| oauthStates := Some (delete (state_of request) m);
      events := events w ++ [EvGet (state_of request); EvDelete (state_of request)] |}).
Proof.
  intros Hx. rewrite GET_validated by assumption. run.
  rewrite Hstore, Hentry, Hx. simpl.
  rewrite <- app_assoc. reflexivity.
Qed.

(** A live entry: the handler is the [try] block run after the lookup. *)
Lemma GET_live :
  expired now info = false ->
  GET env now network request w =
  try_catch (exchange env network (code_of request) (state_of request) info) on_catch
    (log (EvGet (state_of request)) w).
Proof.
  intros Hx. rewrite GET_validated by assumption.
  unfold bind at 1. unfold oauthStates_get. rewrite Hstore, Hentry, Hx. reflexivity.
Qed.

Lemma GET_not_configured :
  expired now info = false ->
  configured env = false ->
  GET env now network request w =
  (Normal NotConfigured, log (EvGet (state_of request)) w).
Proof.
  intros Hx Hc. rewrite GET_live by assumption.
  unfold exchange, configured in *.
  apply andb_false_iff in Hc.
  replace (negb (truthy (env !! "OAUTH_CLIENT_ID"))
           || negb (truthy (env !! "OAUTH_CLIENT_SECRET"))) with true
    by (destruct Hc as [-> | ->]; simpl; rewrite ?orb_true_r; reflexivity).
  reflexivity.
Qed.

Hypothesis Hlive : expired now info = false.
Hypothesis Hconf : configured env = true.

(** With the credentials there, the [try] block is the [fetch] and what
    follows it. *)
Lemma exchange_configured (w0 : World) :
  exchange env network (code_of request) (state_of request) info w0 =
  (tokenResponse <- fetch network (token_request env (code_of request) info) ;;
   if negb (resp_ok tokenResponse) then
     errorData <- lift (resp_text tokenResponse) ;;
     ret (TokenExchangeFailed (resp_status tokenResponse) errorData)
   else
     tokenResult <- lift (resp_json tokenResponse) ;;
     (oauthStates_delete (state_of request) ;;;
      access_token <- lift (get_prop tokenResult "access_token") ;;
      token_type <- lift (get_prop tokenResult "token_type") ;;
      expires_in <- lift (get_prop tokenResult "expires_in") ;;
      refresh_token <- lift (get_prop tokenResult "refresh_token") ;;
      scope <- lift (get_prop tokenResult "scope") ;;
      bearer <- lift (get_prop tokenResult "access_token") ;;
      bearer_text <- lift (js_to_string bearer) ;;
      ret (NextResponse_json
             (JObject
                [ ("success", JBool true);
                  ("message", JString "OAuth authorization successful!");
                  ("tokens",
                   JObject [ ("access_token", access_token);
                             ("token_type", token_type);
                             ("expires_in", expires_in);
                             ("refresh_token", refresh_token);
                             ("scope", scope) ]);
                  ("instructions",
                   JObject
                     [ ("usage",
                        JString "Use the access_token as a Bearer token in the Authorization header");
                       ("example",
                        JString ("Authorization: Bearer " +:+ bearer_text)) ]) ])
             200))) w0.
Proof.
  unfold exchange, configured in *.
  apply andb_prop in Hconf as [-> ->]. reflexivity.
Qed.

Lemma GET_fetch_throws (t : Thrown) :
  network (token_request env (code_of request) info) = Throw t ->
  GET env now network request w =
  on_catch t (log (EvFetch (token_request env (code_of request) info))
                (log (EvGet (state_of request)) w)).
Proof.
  intros Hn. rewrite GET_live by assumption.
  unfold try_catch. rewrite exchange_configured.
  unfold bind, fetch. rewrite Hn. reflexivity.
Qed.

Lemma GET_rejected (r : FetchResponse) (errorData : string) :
  network (token_request env (code_of request) info) = Normal r ->
  resp_ok r = false ->
  resp_text r = Normal errorData ->
  GET env now network request w =
  (Normal (TokenExchangeFailed (resp_status r) errorData),
   log (EvFetch (token_request env (code_of request) info))
     (log (EvGet (state_of request)) w)).
Proof.
  intros Hn Hok Ht. rewrite GET_live by assumption.
  unfold try_catch. rewrite exchange_configured.
  unfold bind, fetch. rewrite Hn, Hok. simpl.
  unfold lift. rewrite Ht. reflexivity.
Qed.

Lemma GET_success (r : FetchResponse) (tokenResult : JsValue) (bearer_text : string) :
  network (token_request env (code_of request) info) = Normal r ->
  resp_ok r = true ->
  resp_json r = Normal tokenResult ->
  tokenResult <> JNull -> tokenResult <> JUndefined ->
  js_to_string (field tokenResult "access_token") = Normal bearer_text ->
  GET env now network request w =
  (Normal (Success tokenResult bearer_text),
   {| oauthStates := Some (delete (state_of request) m);
      events := events w ++ [EvGet (state_of request);
                             EvFetch (token_request env (code_of request) info);
                             EvDelete (state_of request)] |}).
Proof.
  intros Hn Hok Hj Hnull Hundef Hb. rewrite GET_live by assumption.
  unfold try_catch. rewrite exchange_configured.
  unfold bind, fetch. rewrite Hn, Hok. simpl.
  unfold lift. rewrite Hj. unfold oauthStates_delete. simpl. rewrite Hstore.
  rewrite !get_prop_field by assumption. rewrite Hb. unfold ret, Success.
  rewrite <- !app_assoc. reflexivity.
Qed.

End Paths.

(** ** What every run of the handler does *)

Lemma entry_Some (w : World) (state : string) (info : StateInfo) :
  entry w state = Some info ->
  exists m, oauthStates w = Some m /\ m !! state = Some info.
Proof.
  unfold entry. destruct (oauthStates w) as [m |]; [eauto | discriminate].
Qed.

Lemma fetches_app (l1 l2 : list Event) : fetches (l1 ++ l2) = fetches l1 ++ fetches l2.
Proof.
  induction l1 as [| e l1 IH]; simpl; [reflexivity |].
  destruct e; simpl; rewrite IH; reflexivity.
Qed.

(** The [try] block leaves the store alone or deletes [state] from it. *)
Lemma exchange_store env network code state info w0 m :
  oauthStates w0 = Some m ->
  let w' := (exchange env network code state info w0).2 in
  oauthStates w' = Some m \/ oauthStates w' = Some (delete state m).
Proof.
  intros Hm. unfold exchange.
  destruct (negb _ || negb _); [left; exact Hm |].
  run. destruct (network _) as [r | t]; [| left; exact Hm].
  destruct (negb (resp_ok r)).
  - destruct (resp_text r); left; exact Hm.
  - destruct (resp_json r) as [v | t]; [| left; exact Hm].
    simpl. rewrite Hm. right.
    destruct v; simpl; try reflexivity;
      destruct (js_to_string _); reflexivity.
Qed.

(** The [try]/[catch] always ends in a response, which is one of four. *)
Lemma exchange_outcome env network code state info w0 :
  exists response,
    (try_catch (exchange env network code state info) on_catch w0).1 = Normal response /\
    (response = NotConfigured \/
     (exists provider_status provider_body,
        response = TokenExchangeFailed provider_status provider_body) \/
     (exists tokenResult bearer_text, response = Success tokenResult bearer_text) \/
     (exists details, response = CallbackFailed details)).
Proof.
  unfold try_catch, exchange.
  destruct (negb _ || negb _); [eexists; split; [reflexivity | auto] |].
  run. destruct (network _) as [r | t]; [| eexists; split; [reflexivity | eauto 6]].
  destruct (negb (resp_ok r)).
  - destruct (resp_text r) as [errorData | t]; simpl;
      (eexists; split; [reflexivity | eauto 7]).
  - destruct (resp_json r) as [v | t]; simpl;
      [| eexists; split; [reflexivity | eauto 6]].
    destruct (oauthStates w0) as [m0 |]; simpl;
      [| eexists; split; [reflexivity | eauto 6]].
    destruct v; simpl.
    + eexists; split; [reflexivity |]; right; right; right; eexists; reflexivity.
    + eexists; split; [reflexivity |]; right; right; right; eexists; reflexivity.
    + exists (Success (JBool b) "undefined"). split; [reflexivity | eauto 7].
    + exists (Success (JNumber n) "undefined"). split; [reflexivity | eauto 7].
    + exists (Success (JString s) "undefined"). split; [reflexivity | eauto 7].
    + exists (Success (JArray items) "undefined"). split; [reflexivity | eauto 7].
    + destruct (js_to_string _) as [bearer_text | t]; simpl.
      * exists (Success (JObject props) bearer_text). split; [reflexivity | eauto 7].
      * destruct t; eexists; (split; [reflexivity |]);
          right; right; right; eexists; reflexivity.
Qed.

(** The handler leaves the store alone or deletes the request's [state]:
    it never adds an entry, and never defines an undefined store. *)
Lemma GET_store env now network request w :
  let w' := (GET env now network request w).2 in
  oauthStates w' = oauthStates w \/
  exists m, oauthStates w = Some m /\
            oauthStates w' = Some (delete (state_of request) m).
Proof.
  intros w'.
  assert (Hw : w' = (GET env now network request w).2) by reflexivity.
  clearbody w'. revert Hw. unfold GET, state_of.
  destruct (truthy (searchParams_get "error" request)); [intros ->; left; reflexivity |].
  destruct (negb _ || negb _); [intros ->; left; reflexivity |].
  unfold bind at 1. unfold oauthStates_get.
  destruct (oauthStates w) as [m |] eqn:Hm; [| intros ->; left; simpl; exact Hm].
  destruct (m !! _) as [info |]; [| intros ->; left; simpl; exact Hm].
  destruct (expired now info).
  - intros ->. right. exists m. split; [reflexivity |]. run. rewrite Hm. reflexivity.
  - unfold try_catch.
    match goal with
    | |- context [exchange ?e ?n ?c ?s ?i ?w1] =>
        pose proof (exchange_store e n c s i w1 m Hm) as H;
        destruct (exchange e n c s i w1) as [[a | t] w1']
    end; simpl in *; intros ->;
      (destruct H as [H | H]; [left | right; exists m]; rewrite H; auto).
Qed.

(** The handler always answers: no path lets an exception escape. *)
Lemma GET_returns env now network request w :
  exists response, (GET env now network request w).1 = Normal response.
Proof.
  unfold GET.
  destruct (truthy (searchParams_get "error" request)); [eexists; reflexivity |].
  destruct (negb _ || negb _); [eexists; reflexivity |].
  unfold bind at 1. unfold oauthStates_get.
  destruct (oauthStates w) as [m |] eqn:Hm; [| eexists; reflexivity].
  destruct (m !! _) as [info |]; [| eexists; reflexivity].
  destruct (expired now info).
  - run. rewrite Hm. eexists; reflexivity.
  - destruct (exchange_outcome env network
                (narrow (searchParams_get "code" request))
                (narrow (searchParams_get "state" request)) info
                (log (EvGet (narrow (searchParams_get "state" request))) w))
      as (response & H & _).
    exists response. exact H.
Qed.



Lemma expired_spec (now : Z) (info : StateInfo) :
  expired now info = true <-> TTL < now - timestamp info.
Proof. unfold expired. rewrite Z.ltb_lt. lia. Qed.

Lemma expired_false (now : Z) (info : StateInfo) :
  expired now info = false <-> now - timestamp info <= TTL.
Proof. unfold expired. rewrite Z.ltb_ge. lia. Qed.

Section Live.

Variable env : gmap string string.
Variable now : Z.
Variable network : Network.
Variable request : NextRequest.
Variable w : World.
Variable info : StateInfo.
Hypothesis Hvalid : validated request = true.
Hypothesis Hentry : entry w (state_of request) = Some info.
Hypothesis Hlive : expired now info = false.

(** With a live entry the response is one of the four of the [try]. *)
Lemma GET_live_outcome :
  exists response,
    (GET env now network request w).1 = Normal response /\
    (response = NotConfigured \/
     (exists provider_status provider_body,
        response = TokenExchangeFailed provider_status provider_body) \/
     (exists tokenResult bearer_text, response = Success tokenResult bearer_text) \/
     (exists details, response = CallbackFailed details)).
Proof.
  destruct (entry_Some _ _ _ Hentry) as (m & Hm & Hi).
  rewrite (GET_live env now network request w m info) by assumption.
  apply exchange_outcome.
Qed.

Hypothesis Hconf : configured env = true.

(** Whatever the network answers, the handler looks the state up, then
    calls [fetch] once, then at most deletes the state. *)
Lemma GET_live_events :
  exists tail,
    events (GET env now network request w).2 =
    events w ++ [EvGet (state_of request);
                 EvFetch (token_request env (code_of request) info)] ++ tail /\
    (tail = [] \/ tail = [EvDelete (state_of request)]).
Proof.
  destruct (entry_Some _ _ _ Hentry) as (m & Hm & Hi).
  rewrite (GET_live env now network request w m info) by assumption.
  unfold try_catch.
  rewrite exchange_configured by assumption.
  unfold bind, fetch.
  destruct (network _) as [r | t]; simpl;
    [| exists []; rewrite <- app_assoc; auto].
  destruct (negb (resp_ok r)).
  - unfold lift. destruct (resp_text r); simpl;
      (exists []; rewrite <- app_assoc; auto).
  - unfold lift. destruct (resp_json r) as [v | t]; simpl;
      [| exists []; rewrite <- app_assoc; auto].
    unfold oauthStates_delete; simpl. rewrite Hm. exists [EvDelete (state_of request)].
    split; [| auto].
    destruct v; simpl; try (rewrite <- !app_assoc; reflexivity).
    destruct (js_to_string _) as [bearer_text | t]; simpl;
      rewrite <- !app_assoc; reflexivity.
Qed.

Lemma GET_live_fetches :
  fetches (events (GET env now network request w).2) =
  fetches (events w) ++ [token_request env (code_of request) info].
Proof.
  destruct GET_live_events as (tail & -> & [-> | ->]);
    rewrite !fetches_app; reflexivity.
Qed.

End Live.

(** * The claims *)

(** ** C1: a failed exchange and the state entry *)

(** C1, as stated, fails: with [state=s2] stored and live and the token
    endpoint answering 400, the handler answers TokenExchangeFailed without
    deleting anything, before or after the [fetch]; the entry is still in
    the store, and the same callback presented again is not answered
    InvalidState: it calls the token endpoint a second time. *)
Lemma C1_counterexample :
  let request := callback_request "abc123" "s2" in
  let first := GET env_demo 1000 net_rejecting request world_demo in
  let retry := GET env_demo 2000 net_rejecting request first.2 in
  first.1 = Normal (TokenExchangeFailed 400 "invalid_grant") /\
  events first.2 = [ EvGet "s2"; EvFetch (token_request env_demo "abc123" info_s2) ] /\
  deletions (events first.2) = [] /\
  entry first.2 "s2" = Some info_s2 /\
  retry.1 <> Normal InvalidState /\
  retry.1 = Normal (TokenExchangeFailed 400 "invalid_grant") /\
  fetches (events retry.2) =
    [ token_request env_demo "abc123" info_s2; token_request env_demo "abc123" info_s2 ].
Proof. vm_compute. repeat split; discriminate. Qed.

(** C1, amended: for every callback whose state matches a stored, live
    entry, with the client credentials configured, the handler issues the
    token-exchange request with the entry still in the store: whatever the
    network answers, the run logs the lookup, then the one request, and a
    deletion, if any, only after it. When the token endpoint returns a
    non-2xx status and its body can be read, the handler responds
    TokenExchangeFailed and the entry is still in the store afterwards, so
    that the same callback presented again while the entry is live is not
    answered InvalidState: it triggers a fresh exchange request. *)
Theorem C1_failed_exchange_keeps_entry env now network request w info :
  validated request = true ->
  entry w (state_of request) = Some info ->
  expired now info = false ->
  configured env = true ->
  let token_req := token_request env (code_of request) info in
  let first := GET env now network request w in
  (exists after_request,
     events first.2 =
       events w ++ [ EvGet (state_of request); EvFetch token_req ] ++ after_request /\
     (after_request = [] \/ after_request = [ EvDelete (state_of request) ])) /\
  forall r errorData,
    network token_req = Normal r ->
    resp_ok r = false ->
    resp_text r = Normal errorData ->
    first.1 = Normal (TokenExchangeFailed (resp_status r) errorData) /\
    oauthStates first.2 = oauthStates w /\
    entry first.2 (state_of request) = Some info /\
    events first.2 = events w ++ [ EvGet (state_of request); EvFetch token_req ] /\
    forall now' network',
      expired now' info = false ->
      let retry := GET env now' network' request first.2 in
      retry.1 <> Normal InvalidState /\
      fetches (events retry.2) = fetches (events w) ++ [ token_req; token_req ].
Proof.
  intros Hv He Hl Hc token_req first.
  split; [exact (GET_live_events env now network request w info Hv He Hl Hc) |].
  intros r errorData Hn Hok Ht.
  destruct (entry_Some _ _ _ He) as (m & Hm & Hi).
  assert (Hfirst : first =
            (Normal (TokenExchangeFailed (resp_status r) errorData),
             log (EvFetch token_req) (log (EvGet (state_of request)) w))).
  { unfold first. eapply GET_rejected; eassumption. }
  rewrite Hfirst. simpl.
  split; [reflexivity |]. split; [reflexivity |]. split; [exact He |].
  split; [rewrite <- app_assoc; reflexivity |].
  intros now' network' Hl'.
  set (w1 := log _ (log _ w)).
  assert (He1 : entry w1 (state_of request) = Some info) by exact He.
  split.
  - destruct (GET_live_outcome env now' network' request w1 info Hv He1 Hl')
      as (response & -> & [-> | [(s & b & ->) | [(v & bt & ->) | (d & ->)]]]);
      discriminate.
  - rewrite (GET_live_fetches env now' network' request w1 info) by assumption.
    unfold w1. simpl. rewrite !fetches_app. simpl.
    rewrite app_nil_r, <- app_assoc. reflexivity.
Qed.

Lemma C1_failed_exchange_keeps_entry_witness :
  let request := callback_request "abc123" "s2" in
  let first := GET env_demo 1000 net_rejecting request world_demo in
  first.1 = Normal (TokenExchangeFailed 400 "invalid_grant") /\
  oauthStates first.2 = oauthStates world_demo.
Proof.
  destruct (proj2 (C1_failed_exchange_keeps_entry env_demo 1000 net_rejecting
                     (callback_request "abc123" "s2") world_demo info_s2
                     eq_refl eq_refl eq_refl eq_refl)
              response_rejected "invalid_grant" eq_refl eq_refl eq_refl)
    as (H1 & H2 & _).
  split; [exact H1 | exact H2].
Defined.

(** ** C2: single use on the success path *)



(** ** C3: the provider's error comes first *)

(** C3, as stated, fails: the callback [?error=] carries the [error]
    parameter (with an empty value) and no [code] or [state]; the handler
    does not answer OAuthProviderError, it reaches the missing-parameter
    check and answers MissingParams. *)
Lemma C3_counterexample :
  let request := {| searchParams := [ ("error", "") ] |} in
  searchParams_get "error" request = Some "" /\
  GET env_demo 1000 net_ok request world_demo =
    (Normal (MissingParams true true), world_demo) /\
  (GET env_demo 1000 net_ok request world_demo).1 <>
    Normal (OAuthProviderError "" (searchParams_get "error_description" request)).
Proof. vm_compute. repeat split; discriminate. Qed.

(** C3, amended: for every callback whose [error] parameter is present
    with a non-empty value, the handler returns the OAuthProviderError
    response (HTTP 400, with the provider's error and error_description),
    whether or not [code] and [state] are there, and touches neither the
    store nor the network; so the MissingParams response is never the
    answer to such a callback: that check is reached only when [error] is
    absent or empty. *)
Theorem C3_provider_error_takes_precedence env now network request w e :
  searchParams_get "error" request = Some e ->
  e <> "" ->
  GET env now network request w =
    (Normal (OAuthProviderError e (searchParams_get "error_description" request)), w) /\
  status (OAuthProviderError e (searchParams_get "error_description" request)) = 400 /\
  forall code_missing state_missing,
    (GET env now network request w).1 <> Normal (MissingParams code_missing state_missing).
Proof.
  intros He Hne.
  assert (Ht : truthy (searchParams_get "error" request) = true).
  { rewrite He. simpl. destruct (String.eqb_spec e ""); [contradiction | reflexivity]. }
  assert (HG : GET env now network request w =
               (Normal (OAuthProviderError e
                          (searchParams_get "error_description" request)), w)).
  { unfold GET. rewrite Ht, He. reflexivity. }
  split; [exact HG |]. split; [reflexivity |].
  intros cm sm. rewrite HG. discriminate.
Qed.

Lemma C3_provider_error_takes_precedence_witness :
  let request := {| searchParams := [ ("error", "access_denied") ] |} in
  GET env_demo 1000 net_ok request world_demo =
    (Normal (OAuthProviderError "access_denied" None), world_demo).
Proof.
  assert (Hne : "access_denied" <> "") by discriminate.
  exact (proj1 (C3_provider_error_takes_precedence env_demo 1000 net_ok
                  {| searchParams := [ ("error", "access_denied") ] |}
                  world_demo "access_denied" eq_refl Hne)).
Defined.

(** ** C4: an expired entry *)

(** C4: for every callback that reaches the lookup and whose state matches
    a stored entry older than the TTL of 10 minutes, the handler deletes
    the entry, returns the ExpiredState response (HTTP 400) and calls the
    token endpoint not at all; the same callback repeated at any time
    afterwards, whatever the network, is answered InvalidState, again
    without a call to the token endpoint. *)
Theorem C4_expired_entry_is_removed env now network request w info :
  validated request = true ->
  entry w (state_of request) = Some info ->
  TTL < now - timestamp info ->
  let first := GET env now network request w in
  first.1 = Normal ExpiredState /\
  status ExpiredState = 400 /\
  events first.2 =
    events w ++ [ EvGet (state_of request); EvDelete (state_of request) ] /\
  fetches (events first.2) = fetches (events w) /\
  entry first.2 (state_of request) = None /\
  forall now' network',
    let again := GET env now' network' request first.2 in
    again.1 = Normal InvalidState /\
    fetches (events again.2) = fetches (events w).
Proof.
  intros Hv He Hold first.
  destruct (entry_Some _ _ _ He) as (m & Hm & Hi).
  apply expired_spec in Hold.
  assert (Hfirst : first =
            (Normal ExpiredState,
             {| oauthStates := Some (delete (state_of request) m);
                events := events w ++
                  [ EvGet (state_of request); EvDelete (state_of request) ] |})).
  { unfold first. eapply GET_expired; eassumption. }
  assert (Hgone : entry first.2 (state_of request) = None).
  { rewrite Hfirst. unfold entry. simpl. apply lookup_delete_eq. }
  assert (Hf : fetches (events first.2) = fetches (events w)).
  { rewrite Hfirst. simpl. rewrite fetches_app. simpl. apply app_nil_r. }
  split; [rewrite Hfirst; reflexivity |].
  split; [reflexivity |].
  split; [rewrite Hfirst; reflexivity |].
  split; [exact Hf |]. split; [exact Hgone |].
  intros now' network' again. unfold again.
  rewrite GET_unknown by assumption. simpl.
  split; [reflexivity |].
  destruct (oauthStates first.2); [| exact Hf].
  unfold log. simpl. rewrite fetches_app, Hf. simpl. apply app_nil_r.
Qed.

Lemma C4_expired_entry_is_removed_witness :
  let request := callback_request "abc123" "s3" in
  let first := GET env_demo (TTL + 1000) net_ok request world_demo in
  first.1 = Normal ExpiredState /\
  fetches (events first.2) = [] /\
  (GET env_demo (TTL + 1000) net_ok request first.2).1 = Normal InvalidState.
Proof.
  assert (Hold : TTL < (TTL + 1000) - timestamp info_s3) by (vm_compute; reflexivity).
  pose proof (C4_expired_entry_is_removed env_demo (TTL + 1000) net_ok
                (callback_request "abc123" "s3") world_demo info_s3
                eq_refl eq_refl Hold)
    as (H1 & _ & _ & H4 & _ & H6).
  split; [exact H1 |]. split; [exact H4 |].
  exact (proj1 (H6 (TTL + 1000) net_ok)).
Defined.

(** ** C5: the expiry test is strict *)

(** C5: a stored entry is classified as expired exactly when
    [now - createdAt > TTL], the TTL being 10 minutes in milliseconds: for a
    callback that reaches the lookup of a stored entry, the handler answers
    ExpiredState if and only if the age of the entry exceeds the TTL; an
    entry whose age is exactly the TTL is valid, and with the credentials
    configured the handler goes on to call the token endpoint with the
    entry's code verifier. *)
Theorem C5_expiry_is_strict env now network request w info :
  validated request = true ->
  entry w (state_of request) = Some info ->
  TTL = 600000 /\
  (expired now info = true <-> now - timestamp info > TTL) /\
  ((GET env now network request w).1 = Normal ExpiredState <->
   now - timestamp info > TTL) /\
  (now - timestamp info = TTL ->
   (GET env now network request w).1 <> Normal ExpiredState /\
   (configured env = true ->
    fetches (events (GET env now network request w).2) =
      fetches (events w) ++ [ token_request env (code_of request) info ])).
Proof.
  intros Hv He.
  destruct (entry_Some _ _ _ He) as (m & Hm & Hi).
  assert (Hiff : (GET env now network request w).1 = Normal ExpiredState <->
                 now - timestamp info > TTL).
  { destruct (expired now info) eqn:Hx.
    - rewrite (GET_expired env now network request w m info) by assumption.
      apply expired_spec in Hx. simpl. split; [lia | reflexivity].
    - destruct (GET_live_outcome env now network request w info Hv He Hx)
        as (response & -> & [-> | [(s & b & ->) | [(v & bt & ->) | (d & ->)]]]);
        apply expired_false in Hx; (split; [discriminate | lia]). }
  split; [reflexivity |].
  split; [rewrite expired_spec; lia |].
  split; [exact Hiff |].
  intros Hage. split.
  - rewrite Hiff. lia.
  - intros Hc. apply GET_live_fetches; try assumption.
    apply expired_false. lia.
Qed.

Lemma C5_expiry_is_strict_witness :
  let request := callback_request "abc123" "s1" in
  (GET env_demo TTL net_ok request world_demo).1 <> Normal ExpiredState /\
  fetches (events (GET env_demo TTL net_ok request world_demo).2) =
    [ token_request env_demo "abc123" info_s1 ].
Proof.
  pose proof (C5_expiry_is_strict env_demo TTL net_ok
                (callback_request "abc123" "s1") world_demo info_s1
                eq_refl eq_refl)
    as (_ & _ & _ & H4).
  destruct (H4 eq_refl) as (H5 & H6).
  split; [exact H5 | exact (H6 eq_refl)].
Defined.

(** ** C6: the two ways an exchange fails *)

(** C6: once the handler calls the token endpoint (a live entry, the
    credentials configured), a non-2xx response whose body can be read
    yields the HTTP 400 response that carries the provider's status and
    response body, and a [fetch] that throws yields an HTTP 500 response
    with the message of the error; in both cases, as in every other, the
    log shows the one call to the token endpoint and no second one. *)
Theorem C6_failure_modes env now network request w info :
  validated request = true ->
  entry w (state_of request) = Some info ->
  expired now info = false ->
  configured env = true ->
  let token_req := token_request env (code_of request) info in
  let result := GET env now network request w in
  (forall r errorData,
     network token_req = Normal r ->
     resp_ok r = false ->
     resp_text r = Normal errorData ->
     result.1 = Normal (TokenExchangeFailed (resp_status r) errorData) /\
     status (TokenExchangeFailed (resp_status r) errorData) = 400 /\
     get_prop (body (TokenExchangeFailed (resp_status r) errorData)) "details" =
       Normal (JString errorData)) /\
  (forall t,
     network token_req = Throw t ->
     exists details,
       result.1 = Normal (CallbackFailed details) /\
       status (CallbackFailed details) = 500 /\
       details = match t with
                 | ThrownError message => message
                 | ThrownValue => "Unknown error"
                 end) /\
  fetches (events result.2) = fetches (events w) ++ [ token_req ].
Proof.
  intros Hv He Hl Hc token_req result.
  destruct (entry_Some _ _ _ He) as (m & Hm & Hi).
  split; [| split].
  - intros r errorData Hn Hok Ht. unfold result.
    rewrite (GET_rejected env now network request w m info Hv Hm Hi Hl Hc r errorData)
      by assumption.
    repeat split.
  - intros t Hn. unfold result.
    rewrite (GET_fetch_throws env now network request w m info Hv Hm Hi Hl Hc t)
      by assumption.
    eexists. repeat split.
  - apply GET_live_fetches; assumption.
Qed.

Lemma C6_failure_modes_witness :
  let request := callback_request "abc123" "s2" in
  (GET env_demo 1000 net_rejecting request world_demo).1 =
    Normal (TokenExchangeFailed 400 "invalid_grant") /\
  (GET env_demo 1000 net_down request world_demo).1 =
    Normal (CallbackFailed "fetch failed") /\
  fetches (events (GET env_demo 1000 net_down request world_demo).2) =
    [ token_request env_demo "abc123" info_s2 ].
Proof.
  pose proof (C6_failure_modes env_demo 1000 net_rejecting
                (callback_request "abc123" "s2") world_demo info_s2
                eq_refl eq_refl eq_refl eq_refl) as (Hrej & _ & _).
  pose proof (C6_failure_modes env_demo 1000 net_down
                (callback_request "abc123" "s2") world_demo info_s2
                eq_refl eq_refl eq_refl eq_refl) as (_ & Hdown & Hone).
  split; [exact (proj1 (Hrej response_rejected "invalid_grant" eq_refl eq_refl eq_refl)) |].
  split; [| exact Hone].
  destruct (Hdown (ThrownError "fetch failed") eq_refl) as (details & H1 & _ & H3).
  rewrite H1, H3. reflexivity.
Defined.

(** ** C7: the token request and the success response *)



(** ** C8: missing parameters *)

(** C8: for every callback without an [error] parameter in which [code]
    or [state] is absent, the handler returns the HTTP 400 MissingParams
    response, whose [missing] object flags every absent field, and the
    world is untouched: no lookup in the store and no call to the token
    endpoint is logged. *)
Theorem C8_missing_params env now network request w :
  searchParams_get "error" request = None ->
  searchParams_get "code" request = None \/ searchParams_get "state" request = None ->
  let code_missing := negb (truthy (searchParams_get "code" request)) in
  let state_missing := negb (truthy (searchParams_get "state" request)) in
  GET env now network request w = (Normal (MissingParams code_missing state_missing), w) /\
  status (MissingParams code_missing state_missing) = 400 /\
  (searchParams_get "code" request = None -> code_missing = true) /\
  (searchParams_get "state" request = None -> state_missing = true) /\
  events (GET env now network request w).2 = events w.
Proof.
  intros He Hmiss code_missing state_missing.
  assert (HG : GET env now network request w =
               (Normal (MissingParams code_missing state_missing), w)).
  { unfold GET. rewrite He. simpl.
    replace (negb (truthy (searchParams_get "code" request))
             || negb (truthy (searchParams_get "state" request))) with true;
      [reflexivity |].
    destruct Hmiss as [-> | ->]; simpl; rewrite ?orb_true_r; reflexivity. }
  split; [exact HG |]. split; [reflexivity |].
  split; [intros H; unfold code_missing; rewrite H; reflexivity |].
  split; [intros H; unfold state_missing; rewrite H; reflexivity |].
  rewrite HG. reflexivity.
Qed.

Lemma C8_missing_params_witness :
  let request := {| searchParams := [ ("state", "s1") ] |} in
  GET env_demo 1000 net_ok request world_demo =
    (Normal (MissingParams true false), world_demo).
Proof.
  exact (proj1 (C8_missing_params env_demo 1000 net_ok
                  {| searchParams := [ ("state", "s1") ] |} world_demo
                  eq_refl (or_introl eq_refl))).
Defined.

(** ** C9: an undefined store *)

(** C9: when [global.oauthStates] is undefined the handler never throws:
    every request gets a response and the world is left as it is; any
    callback that carries [code] and [state] and reaches the lookup gets the
    InvalidState response with HTTP 400; and for every request the
    response is the one a defined store without that state gives, so the
    undefined store cannot be told from an unknown state. *)
Theorem C9_undefined_store env now network request w :
  oauthStates w = None ->
  (exists response, GET env now network request w = (Normal response, w)) /\
  (validated request = true ->
   GET env now network request w = (Normal InvalidState, w) /\
   status InvalidState = 400) /\
  forall m,
    m !! state_of request = None ->
    (GET env now network request {| oauthStates := Some m; events := events w |}).1 =
    (GET env now network request w).1.
Proof.
  intros Hnone.
  assert (Hu : entry w (state_of request) = None).
  { unfold entry. rewrite Hnone. reflexivity. }
  destruct (validated request) eqn:Hv.
  - assert (HG : GET env now network request w = (Normal InvalidState, w)).
    { rewrite GET_unknown; [rewrite Hnone; reflexivity | exact Hv | exact Hu]. }
    split; [eauto |]. split; [intros _; split; [exact HG | reflexivity] |].
    intros m Hm. rewrite HG, GET_unknown; [reflexivity | exact Hv | exact Hm].
  - split; [| split; [discriminate |]].
    + destruct (GET_returns env now network request w) as (response & Hr).
      exists response.
      rewrite (GET_not_validated env now network request w w Hv), Hr. reflexivity.
    + intros m _.
      rewrite (GET_not_validated env now network request _ w Hv). reflexivity.
Qed.

Lemma C9_undefined_store_witness :
  GET env_demo 1000 net_ok (callback_request "abc123" "s1") world_undefined =
    (Normal InvalidState, world_undefined).
Proof.
  destruct (C9_undefined_store env_demo 1000 net_ok
              (callback_request "abc123" "s1") world_undefined eq_refl)
    as (_ & H & _).
  exact (proj1 (H eq_refl)).
Defined.

(** ** C10: missing client credentials *)

(** C10: when OAUTH_CLIENT_ID or OAUTH_CLIENT_SECRET is not configured
    (unset, or set to the empty string), a callback that passes the
    parameter checks and whose state matches a live entry gets the HTTP
    500 response "OAuth not configured - missing client credentials"; no
    call to the token endpoint is made, nothing is deleted, and the entry
    is still in the store afterwards. *)
Theorem C10_not_configured env now network request w info :
  validated request = true ->
  entry w (state_of request) = Some info ->
  expired now info = false ->
  configured env = false ->
  let result := GET env now network request w in
  result.1 = Normal NotConfigured /\
  status NotConfigured = 500 /\
  body NotConfigured =
    JObject [ ("error", JString "OAuth not configured - missing client credentials") ] /\
  events result.2 = events w ++ [ EvGet (state_of request) ] /\
  fetches (events result.2) = fetches (events w) /\
  oauthStates result.2 = oauthStates w /\
  entry result.2 (state_of request) = Some info.
Proof.
  intros Hv He Hl Hc result.
  destruct (entry_Some _ _ _ He) as (m & Hm & Hi).
  unfold result.
  rewrite (GET_not_configured env now network request w m info) by assumption.
  simpl. do 4 (split; [reflexivity |]).
  split; [rewrite fetches_app; simpl; apply app_nil_r |].
  split; [reflexivity | exact He].
Qed.

Lemma C10_not_configured_witness :
  let request := callback_request "abc123" "s1" in
  let result := GET env_bare 1000 net_ok request world_demo in
  result.1 = Normal NotConfigured /\
  entry result.2 "s1" = Some info_s1.
Proof.
  pose proof (C10_not_configured env_bare 1000 net_ok
                (callback_request "abc123" "s1") world_demo info_s1
                eq_refl eq_refl eq_refl eq_refl)
    as (H1 & _ & _ & _ & _ & _ & H7).
  split; [exact H1 | exact H7].
Defined.

(** * Beyond the claims: the whole of the callback handler *)

(** ** The remaining paths, and the completeness of [GET_path] *)

Lemma truthy_Some (v : option string) :
  truthy v = true -> exists e, v = Some e /\ e <> "".
Proof.
  destruct v as [e |]; simpl; [| discriminate].
  destruct (String.eqb_spec e ""); [discriminate | eauto].
Qed.

Lemma on_catch_eq (t : Thrown) (w : World) :
  on_catch t w = (Normal (CallbackFailed (errorMessage_of "Unknown error" t)), w).
Proof. destruct t; reflexivity. Qed.

Lemma get_prop_throws (v : JsValue) (name : string) (t : Thrown) :
  get_prop v name = Throw t -> v = JNull \/ v = JUndefined.
Proof. destruct v; simpl; intros H; try discriminate; auto. Qed.

Lemma get_prop_normal (v : JsValue) (name : string) (x : JsValue) :
  get_prop v name = Normal x -> v <> JNull /\ v <> JUndefined.
Proof. destruct v; simpl; intros H; try discriminate; split; discriminate. Qed.

Lemma entry_log (e : Event) (w : World) (k : string) : entry (log e w) k = entry w k.
Proof. reflexivity. Qed.

Lemma entry_consumed (state : string) (logged : list Event) (w : World) :
  entry (consumed state logged w) state = None.
Proof.
  unfold entry, consumed. simpl.
  destruct (oauthStates w) as [m |]; simpl; [apply lookup_delete_eq | reflexivity].
Qed.

Lemma entry_consumed_ne (state k : string) (logged : list Event) (w : World) :
  k <> state -> entry (consumed state logged w) k = entry w k.
Proof.
  intros Hne. unfold entry, consumed. simpl.
  destruct (oauthStates w) as [m |]; simpl; [| reflexivity].
  apply lookup_delete_ne. congruence.
Qed.

Section BodyPaths.

Variable env : gmap string string.
Variable now : Z.
Variable network : Network.
Variable request : NextRequest.
Variable w : World.
Variable m : gmap string StateInfo.
Variable info : StateInfo.
Variable r : FetchResponse.
Hypothesis Hvalid : validated request = true.
Hypothesis Hstore : oauthStates w = Some m.
Hypothesis Hentry : m !! state_of request = Some info.
Hypothesis Hlive : expired now info = false.
Hypothesis Hconf : configured env = true.
Hypothesis Hnet : network (token_request env (code_of request) info) = Normal r.

Lemma GET_rejected_unreadable (t : Thrown) :
  resp_ok r = false ->
  resp_text r = Throw t ->
  GET env now network request w =
  on_catch t (log (EvFetch (token_request env (code_of request) info))
                (log (EvGet (state_of request)) w)).
Proof.
  intros Hok Ht. rewrite (GET_live env now network request w m info) by assumption.
  unfold try_catch. rewrite exchange_configured by assumption.
  unfold bind, fetch. rewrite Hnet, Hok. simpl.
  unfold lift. rewrite Ht. reflexivity.
Qed.

Lemma GET_unparsable (t : Thrown) :
  resp_ok r = true ->
  resp_json r = Throw t ->
  GET env now network request w =
  on_catch t (log (EvFetch (token_request env (code_of request) info))
                (log (EvGet (state_of request)) w)).
Proof.
  intros Hok Hj. rewrite (GET_live env now network request w m info) by assumption.
  unfold try_catch. rewrite exchange_configured by assumption.
  unfold bind, fetch. rewrite Hnet, Hok. simpl.
  unfold lift. rewrite Hj. reflexivity.
Qed.

Lemma GET_no_token_object (tokenResult : JsValue) (t : Thrown) :
  resp_ok r = true ->
  resp_json r = Normal tokenResult ->
  get_prop tokenResult "access_token" = Throw t ->
  GET env now network request w =
  on_catch t
    {| oauthStates := Some (delete (state_of request) m);
       events := events w ++ [ EvGet (state_of request);
                               EvFetch (token_request env (code_of request) info);
                               EvDelete (state_of request) ] |}.
Proof.
  intros Hok Hj Hg. rewrite (GET_live env now network request w m info) by assumption.
  unfold try_catch. rewrite exchange_configured by assumption.
  unfold bind, fetch. rewrite Hnet, Hok. simpl.
  unfold lift. rewrite Hj. unfold oauthStates_delete. simpl. rewrite Hstore.
  rewrite Hg, <- !app_assoc. reflexivity.
Qed.

Lemma GET_no_bearer_text (tokenResult : JsValue) (t : Thrown) :
  resp_ok r = true ->
  resp_json r = Normal tokenResult ->
  tokenResult <> JNull ->
  tokenResult <> JUndefined ->
  js_to_string (field tokenResult "access_token") = Throw t ->
  GET env now network request w =
  on_catch t
    {| oauthStates := Some (delete (state_of request) m);
       events := events w ++ [ EvGet (state_of request);
                               EvFetch (token_request env (code_of request) info);
                               EvDelete (state_of request) ] |}.
Proof.
  intros Hok Hj Hnull Hundef Hb.
  rewrite (GET_live env now network request w m info) by assumption.
  unfold try_catch. rewrite exchange_configured by assumption.
  unfold bind, fetch. rewrite Hnet, Hok. simpl.
  unfold lift. rewrite Hj. unfold oauthStates_delete. simpl. rewrite Hstore.
  rewrite !get_prop_field by assumption. rewrite Hb, <- !app_assoc. reflexivity.
Qed.

End BodyPaths.

(** Every run of the handler is one of the paths. *)
Lemma GET_path_complete env now network request w :
  GET_path env now network request w (GET env now network request w).
Proof.
  destruct (truthy (searchParams_get "error" request)) eqn:He.
  { destruct (truthy_Some _ He) as (e & Hget & Hne).
    replace (GET env now network request w)
      with (Normal (OAuthProviderError e
                      (searchParams_get "error_description" request)), w)
      by (unfold GET; rewrite He, Hget; reflexivity).
    apply path_provider_error; assumption. }
  destruct (validated request) eqn:Hv.
  2: { replace (GET env now network request w)
         with (Normal (MissingParams
                         (negb (truthy (searchParams_get "code" request)))
                         (negb (truthy (searchParams_get "state" request)))), w).
       - apply path_missing_params; assumption.
       - unfold GET. rewrite He. unfold validated in Hv. rewrite He in Hv.
         destruct (truthy (searchParams_get "code" request)),
                  (truthy (searchParams_get "state" request));
           simpl in *; try discriminate; reflexivity. }
  destruct (entry w (state_of request)) as [info |] eqn:Hentry.
  2: { rewrite GET_unknown by assumption. apply path_invalid_state; assumption. }
  destruct (entry_Some _ _ _ Hentry) as (m & Hm & Hi).
  destruct (expired now info) eqn:Hx.
  { rewrite (GET_expired env now network request w m info) by assumption.
    pose proof (path_expired_state env now network request w info Hv Hentry Hx) as P.
    unfold consumed in P. rewrite Hm in P. exact P. }
  destruct (configured env) eqn:Hc.
  2: { rewrite (GET_not_configured env now network request w m info) by assumption.
       apply (path_not_configured env now network request w info); assumption. }
  destruct (network (token_request env (code_of request) info)) as [r | t] eqn:Hn.
  2: { rewrite (GET_fetch_throws env now network request w m info) with (t := t)
         by assumption.
       rewrite on_catch_eq. apply path_fetch_throws; assumption. }
  destruct (resp_ok r) eqn:Hok.
  - destruct (resp_json r) as [v | t] eqn:Hj.
    + destruct (get_prop v "access_token") as [x | t] eqn:Hg.
      * destruct (get_prop_normal _ _ _ Hg) as (Hnull & Hundef).
        destruct (js_to_string (field v "access_token")) as [bearer_text | t] eqn:Hb.
        -- rewrite (GET_success env now network request w m info Hv Hm Hi Hx Hc
                      r v bearer_text) by assumption.
           pose proof (path_success env now network request w info r v bearer_text
                         Hv Hentry Hx Hc Hn Hok Hj Hnull Hundef Hb) as P.
           unfold consumed in P. rewrite Hm in P. exact P.
        -- rewrite (GET_no_bearer_text env now network request w m info r
                      Hv Hm Hi Hx Hc Hn v t) by assumption.
           rewrite on_catch_eq.
           pose proof (path_no_bearer_text env now network request w info r v t
                         Hv Hentry Hx Hc Hn Hok Hj Hnull Hundef Hb) as P.
           unfold consumed in P. rewrite Hm in P. exact P.
      * rewrite (GET_no_token_object env now network request w m info r
                   Hv Hm Hi Hx Hc Hn v t) by assumption.
        rewrite on_catch_eq.
        pose proof (path_no_token_object env now network request w info r v t
                      Hv Hentry Hx Hc Hn Hok Hj Hg) as P.
        unfold consumed in P. rewrite Hm in P. exact P.
    + rewrite (GET_unparsable env now network request w m info r
                 Hv Hm Hi Hx Hc Hn t) by assumption.
      rewrite on_catch_eq. eapply path_unparsable; eassumption.
  - destruct (resp_text r) as [errorData | t] eqn:Ht.
    + rewrite (GET_rejected env now network request w m info Hv Hm Hi Hx Hc r errorData)
        by assumption.
      eapply path_rejected; eassumption.
    + rewrite (GET_rejected_unreadable env now network request w m info r
                 Hv Hm Hi Hx Hc Hn t) by assumption.
      rewrite on_catch_eq. eapply path_rejected_unreadable; eassumption.
Qed.

(** ** Properties of the callback handler *)

(** X1: the handler always answers. Whatever the request, the store, the
    clock and the network do (a [fetch] that rejects, a body that cannot
    be read or parsed, a JSON body that is [null]), no exception escapes
    [GET], and the status of its response is 200, 400 or 500. *)
Theorem X1_GET_always_responds env now network request w :
  exists response,
    (GET env now network request w).1 = Normal response /\
    (status response = 200 \/ status response = 400 \/ status response = 500).
Proof.
  destruct (GET_path_complete env now network request w); simpl;
    eexists; (split; [reflexivity | auto]).
Qed.

(** X2: a 200 answer is never given without a successful exchange. If the
    response has status 200, then the request passed the parameter checks,
    its state was stored and live, the token endpoint answered 2xx with a
    JSON body whose access_token has a string form, the response is the
    Success response built from that body, and the state is gone from the
    store. *)
Theorem X2_success_only_after_exchange env now network request w response :
  (GET env now network request w).1 = Normal response ->
  status response = 200 ->
  exists info r tokenResult bearer_text,
    validated request = true /\
    entry w (state_of request) = Some info /\
    expired now info = false /\
    configured env = true /\
    network (token_request env (code_of request) info) = Normal r /\
    resp_ok r = true /\
    resp_json r = Normal tokenResult /\
    js_to_string (field tokenResult "access_token") = Normal bearer_text /\
    response = Success tokenResult bearer_text /\
    entry (GET env now network request w).2 (state_of request) = None.
Proof.
  intros Hr Hs.
  pose proof (GET_path_complete env now network request w) as P.
  destruct (GET env now network request w) as [c w'].
  inversion P; subst; simpl in Hr; inversion Hr; subst; simpl in Hs;
    try discriminate.
  exists info, r, tokenResult, bearer_text. simpl.
  repeat (split; [assumption || reflexivity |]).
  apply entry_consumed.
Qed.

Lemma X2_success_only_after_exchange_witness :
  exists info r tokenResult bearer_text,
    entry world_demo "s1" = Some info /\
    net_ok (token_request env_demo "abc123" info) = Normal r /\
    resp_json r = Normal tokenResult /\
    Success token_json "tok" = Success tokenResult bearer_text.
Proof.
  destruct (X2_success_only_after_exchange env_demo 1000 net_ok
              (callback_request "abc123" "s1") world_demo (Success token_json "tok")
              eq_refl eq_refl)
    as (info & r & v & bt & _ & H2 & _ & _ & H5 & _ & H7 & _ & H9 & _).
  exists info, r, v, bt. repeat split; assumption.
Defined.

(** X3: the handler touches no entry but the one of the request's own
    state: every other key holds afterwards what it held before, and the
    store is defined afterwards exactly when it was before. *)
Theorem X3_other_entries_untouched env now network request w k :
  k <> state_of request ->
  entry (GET env now network request w).2 k = entry w k /\
  (oauthStates (GET env now network request w).2 = None <-> oauthStates w = None).
Proof.
  intros Hne.
  destruct (GET_store env now network request w) as [H | (m & Hm & H)].
  - unfold entry. rewrite H. tauto.
  - unfold entry. rewrite H, Hm. split.
    + apply lookup_delete_ne. congruence.
    + split; discriminate.
Qed.

Lemma X3_other_entries_untouched_witness :
  entry (GET env_demo 1000 net_ok (callback_request "abc123" "s1") world_demo).2 "s2"
  = Some info_s2.
Proof.
  assert (Hne : "s2" <> state_of (callback_request "abc123" "s1")) by discriminate.
  exact (proj1 (X3_other_entries_untouched env_demo 1000 net_ok
                  (callback_request "abc123" "s1") world_demo "s2" Hne)).
Defined.

(** X4: the token endpoint is called at most once per callback, and only
    for a request that passed the parameter checks and whose state is
    stored and live, with the credentials configured; the call made is then
    the token request for the request's code and the entry's verifier. *)
Theorem X4_fetch_only_for_live_state env now network request w :
  exists made,
    fetches (events (GET env now network request w).2) = fetches (events w) ++ made /\
    (made = [] \/
     exists info,
       validated request = true /\
       entry w (state_of request) = Some info /\
       expired now info = false /\
       configured env = true /\
       made = [ token_request env (code_of request) info ]).
Proof.
  destruct (GET_path_complete env now network request w); simpl;
    try (exists []; split; [rewrite ?fetches_app; simpl; rewrite ?app_nil_r; reflexivity
                           | left; reflexivity]);
    try (exists [ token_request env (code_of request) info ];
         split; [rewrite <- ?app_assoc, !fetches_app; reflexivity | right; eauto 10]).
  exists []. split; [| left; reflexivity].
  destruct (oauthStates w); simpl;
    rewrite ?fetches_app; simpl; rewrite ?app_nil_r; reflexivity.
Qed.

(** X5: when the entry of a callback's state is removed. For a request that
    passed the parameter checks and whose state is stored, the entry is
    gone after the run exactly when it was expired, or the credentials are
    configured and the token endpoint answered 2xx with a body that parsed
    as JSON; in every other run the entry is kept. *)
Theorem X5_entry_removed_iff env now network request w info :
  validated request = true ->
  entry w (state_of request) = Some info ->
  entry (GET env now network request w).2 (state_of request) = None <->
  (expired now info = true \/
   (configured env = true /\
    exists r tokenResult,
      network (token_request env (code_of request) info) = Normal r /\
      resp_ok r = true /\
      resp_json r = Normal tokenResult)).
Proof.
  intros Hv He.
  destruct (validated_inv _ Hv) as (Herr & _ & _).
  destruct (GET_path_complete env now network request w); simpl;
    rewrite ?entry_log, ?entry_consumed; try congruence;
    try match goal with
        | H : entry w _ = Some ?i |- _ =>
            assert (i = info) by congruence; subst i
        end.
  - exfalso.
    match goal with
    | H : searchParams_get "error" request = Some _ |- _ => rewrite H in Herr
    end.
    simpl in Herr. destruct (String.eqb_spec e ""); [contradiction | discriminate].
  - split; auto.
  - rewrite He. split; [discriminate |].
    intros [Hx | (Hc & _)]; congruence.
  - rewrite He. split; [discriminate |].
    intros [Hx | (_ & r & v & Hn & _)]; congruence.
  - rewrite He. split; [discriminate |].
    intros [Hx | (_ & r' & v & Hn & Hok & _)]; [congruence |].
    assert (r' = r) by congruence. subst r'. congruence.
  - rewrite He. split; [discriminate |].
    intros [Hx | (_ & r' & v & Hn & Hok & _)]; [congruence |].
    assert (r' = r) by congruence. subst r'. congruence.
  - rewrite He. split; [discriminate |].
    intros [Hx | (_ & r' & v & Hn & Hok & Hj)]; [congruence |].
    assert (r' = r) by congruence. subst r'. congruence.
  - split; [| reflexivity]. intros _. right. eauto 10.
  - split; [| reflexivity]. intros _. right. eauto 10.
  - split; [| reflexivity]. intros _. right. eauto 10.
Qed.

Lemma X5_entry_removed_iff_witness :
  entry (GET env_demo 1000 net_rejecting (callback_request "abc123" "s2") world_demo).2
    "s2" <> None.
Proof.
  intros Hgone.
  destruct (proj1 (X5_entry_removed_iff env_demo 1000 net_rejecting
                     (callback_request "abc123" "s2") world_demo info_s2
                     eq_refl eq_refl) Hgone)
    as [Hx | (_ & r & v & Hn & Hok & _)].
  - discriminate Hx.
  - injection Hn as <-. discriminate Hok.
Defined.

(** X6: a 2xx response whose JSON body is [null] consumes the state and is
    answered as a failure. The state is deleted before the handler reads
    the token fields, reading [access_token] of [null] throws, and the
    [catch] answers HTTP 500 with the message of that error; the same
    callback presented again is answered InvalidState. *)
Theorem X6_null_token_body env now network request w info r :
  validated request = true ->
  entry w (state_of request) = Some info ->
  expired now info = false ->
  configured env = true ->
  network (token_request env (code_of request) info) = Normal r ->
  resp_ok r = true ->
  resp_json r = Normal JNull ->
  let first := GET env now network request w in
  first.1 =
    Normal (CallbackFailed "Cannot read properties of null (reading 'access_token')") /\
  status (CallbackFailed "Cannot read properties of null (reading 'access_token')") = 500 /\
  entry first.2 (state_of request) = None /\
  deletions (events first.2) = deletions (events w) ++ [ state_of request ] /\
  forall now' network',
    (GET env now' network' request first.2).1 = Normal InvalidState.
Proof.
  intros Hv He Hl Hc Hn Hok Hj first.
  destruct (entry_Some _ _ _ He) as (m & Hm & Hi).
  assert (Hfirst : first =
            (Normal (CallbackFailed
                       "Cannot read properties of null (reading 'access_token')"),
             {| oauthStates := Some (delete (state_of request) m);
                events := events w ++
                  [ EvGet (state_of request);
                    EvFetch (token_request env (code_of request) info);
                    EvDelete (state_of request) ] |})).
  { unfold first.
    rewrite (GET_no_token_object env now network request w m info r
               Hv Hm Hi Hl Hc Hn JNull
               (ThrownError "Cannot read properties of null (reading 'access_token')"))
      by (assumption || reflexivity).
    reflexivity. }
  assert (Hgone : entry first.2 (state_of request) = None).
  { rewrite Hfirst. unfold entry. simpl. apply lookup_delete_eq. }
  split; [rewrite Hfirst; reflexivity |]. split; [reflexivity |].
  split; [exact Hgone |].
  split.
  { rewrite Hfirst. simpl.
    assert (Happ : forall l1 l2, deletions (l1 ++ l2) = deletions l1 ++ deletions l2).
    { induction l1 as [| e l1 IH]; intros l2; simpl; [reflexivity |].
      destruct e; simpl; rewrite IH; reflexivity. }
    rewrite Happ. reflexivity. }
  intros now' network'. rewrite GET_unknown by assumption. reflexivity.
Qed.

Lemma X6_null_token_body_witness :
  let first := GET env_demo 1000 net_null (callback_request "abc123" "s1") world_demo in
  first.1 =
    Normal (CallbackFailed "Cannot read properties of null (reading 'access_token')") /\
  entry first.2 "s1" = None.
Proof.
  pose proof (X6_null_token_body env_demo 1000 net_null
                (callback_request "abc123" "s1") world_demo info_s1 response_null
                eq_refl eq_refl eq_refl eq_refl eq_refl eq_refl eq_refl)
    as (H1 & _ & H3 & _).
  split; [exact H1 | exact H3].
Defined.

(** X7: a body that cannot be read leaves the state usable. When the token
    endpoint answered and reading its body rejects ([text()] of a non-2xx
    response, or [json()] of a 2xx response, as for a body that is not
    JSON), the handler answers HTTP 500 with the message of the error,
    after its one call to the endpoint, and the store is as it was. *)
Theorem X7_unreadable_body_keeps_entry env now network request w info r t :
  validated request = true ->
  entry w (state_of request) = Some info ->
  expired now info = false ->
  configured env = true ->
  network (token_request env (code_of request) info) = Normal r ->
  (resp_ok r = false /\ resp_text r = Throw t) \/
  (resp_ok r = true /\ resp_json r = Throw t) ->
  let result := GET env now network request w in
  result.1 = Normal (CallbackFailed (errorMessage_of "Unknown error" t)) /\
  status (CallbackFailed (errorMessage_of "Unknown error" t)) = 500 /\
  oauthStates result.2 = oauthStates w /\
  events result.2 =
    events w ++ [ EvGet (state_of request);
                  EvFetch (token_request env (code_of request) info) ].
Proof.
  intros Hv He Hl Hc Hn Hbody result.
  destruct (entry_Some _ _ _ He) as (m & Hm & Hi).
  assert (Hres : result =
            on_catch t (log (EvFetch (token_request env (code_of request) info))
                          (log (EvGet (state_of request)) w))).
  { unfold result. destruct Hbody as [(Hok & Ht) | (Hok & Hj)].
    - apply (GET_rejected_unreadable env now network request w m info r); assumption.
    - apply (GET_unparsable env now network request w m info r); assumption. }
  rewrite Hres, on_catch_eq. simpl.
  split; [reflexivity |]. split; [reflexivity |]. split; [reflexivity |].
  rewrite <- app_assoc. reflexivity.
Qed.

Lemma X7_unreadable_body_keeps_entry_witness :
  let network : Network :=
    fun _ => Normal {| resp_status := 200; resp_text := Normal "<html>";
                       resp_json := Throw (ThrownError "Unexpected token <") |} in
  let result := GET env_demo 1000 network (callback_request "abc123" "s1") world_demo in
  result.1 = Normal (CallbackFailed "Unexpected token <") /\
  oauthStates result.2 = oauthStates world_demo.
Proof.
  pose proof (X7_unreadable_body_keeps_entry env_demo 1000
                (fun _ => Normal {| resp_status := 200; resp_text := Normal "<html>";
                                    resp_json := Throw (ThrownError "Unexpected token <") |})
                (callback_request "abc123" "s1") world_demo info_s1
                {| resp_status := 200; resp_text := Normal "<html>";
                   resp_json := Throw (ThrownError "Unexpected token <") |}
                (ThrownError "Unexpected token <")
                eq_refl eq_refl eq_refl eq_refl eq_refl
                (or_intror (conj eq_refl eq_refl)))
    as (H1 & _ & H3 & _).
  split; [exact H1 | exact H3].
Defined.

(** X8: the redirect URI without OAUTH_REDIRECT_URI. When that variable is
    unset or empty, the [redirect_uri] of the token request is the value
    of VERCEL_URL, as it is, followed by [/api/oauth/callback], and when
    VERCEL_URL is unset or empty too it is the callback on
    [http://localhost:3000]. *)
Theorem X8_redirect_uri_fallback env code info :
  truthy (env !! "OAUTH_REDIRECT_URI") = false ->
  (forall url, env !! "VERCEL_URL" = Some url -> url <> "" ->
     assoc "redirect_uri" (fetch_body (token_request env code info)) =
       Some (url +:+ "/api/oauth/callback")) /\
  (truthy (env !! "VERCEL_URL") = false ->
     assoc "redirect_uri" (fetch_body (token_request env code info)) =
       Some "http://localhost:3000/api/oauth/callback").
Proof.
  intros Hr. simpl. unfold redirectUri, or_else. rewrite Hr. split.
  - intros url Hu Hne. rewrite Hu. simpl.
    destruct (String.eqb_spec url ""); [contradiction | reflexivity].
  - intros Hu. rewrite Hu. reflexivity.
Qed.

Lemma X8_redirect_uri_fallback_witness :
  assoc "redirect_uri" (fetch_body (token_request env_bare "abc123" info_s1)) =
    Some "https://app.example/api/oauth/callback".
Proof.
  assert (Hne : "https://app.example" <> "") by discriminate.
  exact (proj1 (X8_redirect_uri_fallback env_bare "abc123" info_s1 eq_refl)
           "https://app.example" eq_refl Hne).
Defined.

Lemma assoc_app {A : Type} (k : string) (l1 l2 : list (string * A)) :
  assoc k (l1 ++ l2) = match assoc k l1 with
                       | Some v => Some v
                       | None => assoc k l2
                       end.
Proof.
  induction l1 as [| [k' v] l1 IH]; simpl; [destruct (assoc k l2); reflexivity |].
  destruct (String.eqb k' k); [reflexivity | exact IH].
Qed.

(** X9: the handler reads four query parameters and the first value of
    each. Two requests that agree on the first values of [code], [state],
    [error] and [error_description] are handled alike; so pairs added
    after the query, whether they repeat one of the four names already
    there or carry other names, change nothing. *)
Theorem X9_first_values_decide env now network w params extra :
  (forall name,
     name = "code" \/ name = "state" \/ name = "error" \/ name = "error_description" ->
     assoc name params <> None \/ assoc name extra = None) ->
  GET env now network {| searchParams := params ++ extra |} w =
  GET env now network {| searchParams := params |} w.
Proof.
  intros H.
  assert (Hget : forall name,
            name = "code" \/ name = "state" \/ name = "error"
            \/ name = "error_description" ->
            searchParams_get name {| searchParams := params ++ extra |} =
            searchParams_get name {| searchParams := params |}).
  { intros name Hn. unfold searchParams_get. simpl. rewrite assoc_app.
    destruct (H name Hn) as [Hp | He].
    - destruct (assoc name params); [reflexivity | contradiction].
    - rewrite He. destruct (assoc name params); reflexivity. }
  unfold GET.
  rewrite (Hget "code"), (Hget "state"), (Hget "error"), (Hget "error_description")
    by tauto.
  reflexivity.
Qed.

Lemma X9_first_values_decide_witness :
  GET env_demo 1000 net_ok
    {| searchParams := [ ("code", "abc123"); ("state", "s1") ]
                       ++ [ ("state", "s2"); ("utm", "x") ] |} world_demo =
  GET env_demo 1000 net_ok (callback_request "abc123" "s1") world_demo.
Proof.
  apply (X9_first_values_decide env_demo 1000 net_ok world_demo
           [ ("code", "abc123"); ("state", "s1") ] [ ("state", "s2"); ("utm", "x") ]).
  intros name [-> | [-> | [-> | ->]]];
    solve [left; discriminate | right; reflexivity].
Defined.

(** X10: serving callbacks never adds to the store. After any sequence of
    callbacks, whatever they are, an entry found in the store was there
    before with the same verifier and timestamp, and a store that was
    undefined is still undefined. *)
Theorem X10_serve_never_inserts env cbs w :
  (forall k info,
     entry (serve env cbs w) k = Some info -> entry w k = Some info) /\
  (oauthStates (serve env cbs w) = None <-> oauthStates w = None).
Proof.
  revert w. induction cbs as [| cb cbs IH]; intros w; simpl.
  - split; [auto | tauto].
  - destruct (IH (GET env (cb_now cb) (cb_network cb) (cb_request cb) w).2)
      as (H1 & H2).
    destruct (GET_store env (cb_now cb) (cb_network cb) (cb_request cb) w)
      as [Hs | (m & Hm & Hs)].
    + split.
      * intros k info H. apply H1 in H. unfold entry in *. rewrite Hs in H. exact H.
      * rewrite H2, Hs. tauto.
    + split.
      * intros k info H. apply H1 in H. unfold entry in *. rewrite Hs in H.
        rewrite Hm. rewrite lookup_delete in H.
        case_decide; [discriminate | exact H].
      * rewrite H2, Hs, Hm. split; discriminate.
Qed.

Lemma X10_serve_never_inserts_witness :
  entry world_demo "s2" = Some info_s2.
Proof.
  exact (proj1 (X10_serve_never_inserts env_demo
                  [ {| cb_now := 1000; cb_network := net_ok;
                       cb_request := callback_request "abc123" "s1" |};
                    {| cb_now := 2000; cb_network := net_rejecting;
                       cb_request := callback_request "abc123" "s2" |} ]
                  world_demo) "s2" info_s2 eq_refl).
Defined.

(** X11: the order of the calls of one run. What a run adds to the log
    is nothing, or the lookup of the request's state followed by its
    deletion, by the one call to the token endpoint, or by that call and
    then the deletion: the store is read before anything else, and a state
    for which the token endpoint is called is never deleted before the
    call. *)
Theorem X11_order_of_calls env now network request w :
  exists logged,
    events (GET env now network request w).2 = events w ++ logged /\
    (logged = [] \/
     logged = [ EvGet (state_of request) ] \/
     logged = [ EvGet (state_of request); EvDelete (state_of request) ] \/
     exists token_req,
       logged = [ EvGet (state_of request); EvFetch token_req ] \/
       logged = [ EvGet (state_of request); EvFetch token_req;
                  EvDelete (state_of request) ]).
Proof.
  destruct (GET_path_complete env now network request w); simpl;
    try (exists []; split; [rewrite app_nil_r; reflexivity | auto]; fail);
    try (eexists; split; [rewrite <- ?app_assoc; reflexivity | eauto 8]; fail).
  destruct (oauthStates w); simpl.
  - eexists; split; [reflexivity | auto].
  - exists []; split; [rewrite app_nil_r; reflexivity | auto].
Qed.

(** X22: an access token without a string form consumes the state and is
    answered as a failure. When the token endpoint answers 2xx with a JSON
    body whose [access_token] is an object with a property [toString] of
    its own, building the [example] of the success response throws after
    the state was deleted; the [catch] answers HTTP 500 "Cannot convert
    object to primitive value", and the same callback presented again is
    answered InvalidState. *)
Theorem X22_unprintable_access_token
    env now network request w info r tokenResult props own :
  validated request = true ->
  entry w (state_of request) = Some info ->
  expired now info = false ->
  configured env = true ->
  network (token_request env (code_of request) info) = Normal r ->
  resp_ok r = true ->
  resp_json r = Normal tokenResult ->
  field tokenResult "access_token" = JObject props ->
  assoc "toString" props = Some own ->
  let first := GET env now network request w in
  first.1 = Normal (CallbackFailed "Cannot convert object to primitive value") /\
  status (CallbackFailed "Cannot convert object to primitive value") = 500 /\
  entry first.2 (state_of request) = None /\
  events first.2 =
    events w ++ [ EvGet (state_of request);
                  EvFetch (token_request env (code_of request) info);
                  EvDelete (state_of request) ] /\
  forall now' network',
    (GET env now' network' request first.2).1 = Normal InvalidState.
Proof.
  intros Hv He Hl Hc Hn Hok Hj Hf Hown first.
  destruct (entry_Some _ _ _ He) as (m & Hm & Hi).
  assert (Hnull : tokenResult <> JNull) by (intros ->; discriminate Hf).
  assert (Hundef : tokenResult <> JUndefined) by (intros ->; discriminate Hf).
  assert (Hb : js_to_string (field tokenResult "access_token") =
               Throw (ThrownError "Cannot convert object to primitive value")).
  { rewrite Hf. simpl. rewrite Hown. reflexivity. }
  assert (Hfirst : first =
            (Normal (CallbackFailed "Cannot convert object to primitive value"),
             {| oauthStates := Some (delete (state_of request) m);
                events := events w ++
                  [ EvGet (state_of request);
                    EvFetch (token_request env (code_of request) info);
                    EvDelete (state_of request) ] |})).
  { unfold first.
    rewrite (GET_no_bearer_text env now network request w m info r
               Hv Hm Hi Hl Hc Hn tokenResult
               (ThrownError "Cannot convert object to primitive value"))
      by assumption.
    reflexivity. }
  assert (Hgone : entry first.2 (state_of request) = None).
  { rewrite Hfirst. unfold entry. simpl. apply lookup_delete_eq. }
  split; [rewrite Hfirst; reflexivity |]. split; [reflexivity |].
  split; [exact Hgone |]. split; [rewrite Hfirst; reflexivity |].
  intros now' network'. rewrite GET_unknown by assumption. reflexivity.
Qed.

Lemma X22_unprintable_access_token_witness :
  let first :=
    GET env_demo 1000 net_unprintable (callback_request "abc123" "s1") world_demo in
  first.1 = Normal (CallbackFailed "Cannot convert object to primitive value") /\
  entry first.2 "s1" = None.
Proof.
  pose proof (X22_unprintable_access_token env_demo 1000 net_unprintable
                (callback_request "abc123" "s1") world_demo info_s1
                response_unprintable token_json_unprintable
                [ ("toString", JNumber 1) ] (JNumber 1)
                eq_refl eq_refl eq_refl eq_refl eq_refl eq_refl eq_refl eq_refl eq_refl)
    as (H1 & _ & H3 & _).
  split; [exact H1 | exact H3].
Defined.

(** * Beyond the claims: the MCP routes *)

(** ** Strings *)

Lemma prefix_append (p s : string) : String.prefix p (p +:+ s) = true.
Proof.
  induction p as [| c p IH]; simpl; [destruct s; reflexivity |].
  destruct (Ascii.ascii_dec c c); [exact IH | congruence].
Qed.

Lemma String_drop_append (p s : string) :
  Mcp.String_drop (String.length p) (p +:+ s) = s.
Proof. induction p as [| c p IH]; simpl; [reflexivity | exact IH]. Qed.

Lemma String_replace_unfold (s pattern replacement : string) :
  Mcp.String_replace s pattern replacement =
  if String.prefix pattern s then
    replacement +:+ Mcp.String_drop (String.length pattern) s
  else
    match s with
    | EmptyString => EmptyString
    | String c s' => String c (Mcp.String_replace s' pattern replacement)
    end.
Proof. destruct s; reflexivity. Qed.

(** A pattern at the head of the string is the occurrence replaced. *)
Lemma String_replace_prefix (p s replacement : string) :
  Mcp.String_replace (p +:+ s) p replacement = replacement +:+ s.
Proof.
  rewrite String_replace_unfold, prefix_append, String_drop_append. reflexivity.
Qed.

(** Without an occurrence of the pattern the string is returned as it is. *)
Lemma String_replace_absent (s pattern replacement : string) :
  Mcp.String_includes s pattern = false ->
  Mcp.String_replace s pattern replacement = s.
Proof.
  assert (Hunfold : forall s0,
            Mcp.String_includes s0 pattern =
            String.prefix pattern s0
            || match s0 with
               | EmptyString => false
               | String _ s' => Mcp.String_includes s' pattern
               end) by (intros s0; destruct s0; reflexivity).
  induction s as [| c s IH]; intros H; rewrite String_replace_unfold;
    rewrite Hunfold in H; apply orb_false_iff in H as [Hp Hs]; rewrite Hp.
  - reflexivity.
  - rewrite IH by exact Hs. reflexivity.
Qed.

Lemma truthy_Some_true (s : string) : s <> "" -> truthy (Some s) = true.
Proof. intros H. simpl. destruct (String.eqb_spec s ""); [contradiction | reflexivity]. Qed.

(** [providedKey === apiKey] *)
Lemma provided_key_eq (providedKey : option string) (key : string) :
  match providedKey with
  | Some provided => String.eqb provided key
  | None => false
  end = true <-> providedKey = Some key.
Proof.
  destruct providedKey as [provided |]; [| split; discriminate].
  destruct (String.eqb_spec provided key); split; congruence.
Qed.

(** ** The API-key check *)

Lemma authenticate_configured env request key :
  env !! "MCP_API_KEY" = Some key ->
  key <> "" ->
  Mcp.authenticateRequest env request =
  let stripped :=
    (fun h => Mcp.String_replace h "Bearer " "")
      <$> Mcp.headers_get "authorization" request in
  match (if truthy stripped then stripped else Mcp.headers_get "x-api-key" request) with
  | Some provided => String.eqb provided key
  | None => false
  end.
Proof.
  intros Hkey Hnonempty.
  unfold Mcp.authenticateRequest. rewrite Hkey, (truthy_Some_true key Hnonempty).
  reflexivity.
Qed.

Lemma authenticated_passes JSON_stringify handler env request :
  Mcp.authenticateRequest env request = true ->
  Mcp.authenticatedHandler JSON_stringify handler env request = handler request.
Proof. intros Ha. unfold Mcp.authenticatedHandler. rewrite Ha. reflexivity. Qed.

Lemma unauthenticated_401 JSON_stringify handler env request :
  Mcp.authenticateRequest env request = false ->
  Mcp.authenticatedHandler JSON_stringify handler env request =
  Mcp.unauthorized JSON_stringify.
Proof. intros Ha. unfold Mcp.authenticatedHandler. rewrite Ha. reflexivity. Qed.

(** X12: without an API key the routes are open. When MCP_API_KEY is unset
    or empty, every request is authenticated, whatever its headers, and
    the wrapper hands it to the MCP handler. *)
Theorem X12_open_without_key JSON_stringify handler env request :
  truthy (env !! "MCP_API_KEY") = false ->
  Mcp.authenticateRequest env request = true /\
  Mcp.authenticatedHandler JSON_stringify handler env request = handler request.
Proof.
  intros Hk.
  assert (Ha : Mcp.authenticateRequest env request = true).
  { unfold Mcp.authenticateRequest. rewrite Hk. reflexivity. }
  split; [exact Ha | apply authenticated_passes, Ha].
Qed.

Lemma X12_open_without_key_witness :
  Mcp.authenticatedHandler Mcp.stringify_demo Mcp.handler_demo Mcp.env_open
    (Mcp.request_with [ ("authorization", "Bearer anything") ]) =
  Mcp.handler_demo (Mcp.request_with [ ("authorization", "Bearer anything") ]).
Proof.
  exact (proj2 (X12_open_without_key Mcp.stringify_demo Mcp.handler_demo Mcp.env_open
                  (Mcp.request_with [ ("authorization", "Bearer anything") ])
                  eq_refl)).
Defined.

(** X13: the key as a Bearer token. With MCP_API_KEY configured, a request
    whose Authorization header is [Bearer ] followed by the key is
    authenticated, whatever its x-api-key header, and reaches the MCP
    handler. *)
Theorem X13_bearer_key_accepted JSON_stringify handler env request key :
  env !! "MCP_API_KEY" = Some key ->
  key <> "" ->
  Mcp.headers_get "authorization" request = Some ("Bearer " +:+ key) ->
  Mcp.authenticateRequest env request = true /\
  Mcp.authenticatedHandler JSON_stringify handler env request = handler request.
Proof.
  intros Hkey Hnonempty Hauth.
  assert (Ha : Mcp.authenticateRequest env request = true).
  { rewrite (authenticate_configured env request key Hkey Hnonempty), Hauth.
    cbn [fmap option_fmap option_map].
    rewrite (String_replace_prefix "Bearer " key "").
    change ("" +:+ key) with key.
    rewrite (truthy_Some_true key Hnonempty). apply String.eqb_refl. }
  split; [exact Ha | apply authenticated_passes, Ha].
Qed.

Lemma X13_bearer_key_accepted_witness :
  Mcp.authenticateRequest Mcp.env_key
    (Mcp.request_with [ ("authorization", "Bearer k-123"); ("x-api-key", "other") ])
  = true.
Proof.
  assert (Hne : "k-123" <> "") by discriminate.
  exact (proj1 (X13_bearer_key_accepted Mcp.stringify_demo Mcp.handler_demo Mcp.env_key
                  (Mcp.request_with [ ("authorization", "Bearer k-123");
                                      ("x-api-key", "other") ])
                  "k-123" eq_refl Hne eq_refl)).
Defined.

(** What [headers.get] returns never ends with whitespace: a header sent
    as [Bearer ] reads as [Bearer]. *)
Lemma strip_trailing_end (s t : string) (c : Ascii.ascii) :
  Mcp.strip_trailing s = t +:+ String c "" -> Mcp.http_whitespace c = false.
Proof.
  revert t. induction s as [| a s IH]; intros t H; simpl in H.
  - destruct t; discriminate.
  - destruct (Mcp.strip_trailing s) as [| b rest] eqn:E.
    + destruct (Mcp.http_whitespace a) eqn:Ha; [destruct t; discriminate |].
      destruct t as [| a' t']; simpl in H.
      * injection H as ->. exact Ha.
      * injection H as _ H. destruct t'; discriminate.
    + destruct t as [| a' t']; simpl in H; [discriminate |].
      injection H as _ H. apply (IH t'). exact H.
Qed.

Lemma headers_get_stripped (name : string) (request : Mcp.NextRequest)
    (t : string) (c : Ascii.ascii) :
  Mcp.headers_get name request = Some (t +:+ String c "") ->
  Mcp.http_whitespace c = false.
Proof.
  unfold Mcp.headers_get, Mcp.normalize.
  destruct (Mcp.headers request !! name) as [value |]; [| discriminate].
  cbn [fmap option_fmap option_map]. intros H. injection H as H.
  exact (strip_trailing_end _ _ _ H).
Qed.

(** X14: the x-api-key header counts when the Authorization header gives
    nothing. With MCP_API_KEY configured and the Authorization header
    absent or empty (as it reads when it was sent with whitespace only),
    the request is authenticated exactly when its x-api-key header is the
    key; otherwise, so also without either header, the wrapper answers 401
    with the JSON error, whatever the MCP handler is. *)
Theorem X14_x_api_key_fallback JSON_stringify handler env request key :
  env !! "MCP_API_KEY" = Some key ->
  key <> "" ->
  Mcp.headers_get "authorization" request = None \/
  Mcp.headers_get "authorization" request = Some "" ->
  (Mcp.authenticateRequest env request = true <->
   Mcp.headers_get "x-api-key" request = Some key) /\
  (Mcp.headers_get "x-api-key" request <> Some key ->
   Mcp.authenticatedHandler JSON_stringify handler env request =
   Mcp.unauthorized JSON_stringify) /\
  Mcp.res_status (Mcp.unauthorized JSON_stringify) = 401.
Proof.
  intros Hkey Hnonempty Hauth.
  assert (Ha : Mcp.authenticateRequest env request = true <->
               Mcp.headers_get "x-api-key" request = Some key).
  { rewrite (authenticate_configured env request key Hkey Hnonempty). cbv zeta.
    replace (if truthy ((fun h => Mcp.String_replace h "Bearer " "")
                          <$> Mcp.headers_get "authorization" request)
             then (fun h => Mcp.String_replace h "Bearer " "")
                    <$> Mcp.headers_get "authorization" request
             else Mcp.headers_get "x-api-key" request)
      with (Mcp.headers_get "x-api-key" request)
      by (destruct Hauth as [-> | ->]; reflexivity).
    apply provided_key_eq. }
  split; [exact Ha |]. split; [| reflexivity].
  intros Hne. apply unauthenticated_401.
  destruct (Mcp.authenticateRequest env request); [| reflexivity].
  exfalso. apply Hne, Ha. reflexivity.
Qed.

Lemma X14_x_api_key_fallback_witness :
  Mcp.authenticateRequest Mcp.env_key (Mcp.request_with [ ("x-api-key", "k-123") ]) = true /\
  Mcp.authenticateRequest Mcp.env_key
    (Mcp.request_with [ ("authorization", "  "); ("x-api-key", " k-123 ") ]) = true /\
  Mcp.authenticatedHandler Mcp.stringify_demo Mcp.handler_demo Mcp.env_key
    (Mcp.request_with []) = Mcp.unauthorized Mcp.stringify_demo.
Proof.
  assert (Hne : "k-123" <> "") by discriminate.
  split; [| split].
  - exact (proj2 (proj1 (X14_x_api_key_fallback Mcp.stringify_demo Mcp.handler_demo
                           Mcp.env_key (Mcp.request_with [ ("x-api-key", "k-123") ])
                           "k-123" eq_refl Hne (or_introl eq_refl)))
             eq_refl).
  - exact (proj2 (proj1 (X14_x_api_key_fallback Mcp.stringify_demo Mcp.handler_demo
                           Mcp.env_key
                           (Mcp.request_with [ ("authorization", "  ");
                                               ("x-api-key", " k-123 ") ])
                           "k-123" eq_refl Hne (or_intror eq_refl)))
             eq_refl).
  - assert (Hwrong : Mcp.headers_get "x-api-key" (Mcp.request_with []) <> Some "k-123")
      by discriminate.
    exact (proj1 (proj2 (X14_x_api_key_fallback Mcp.stringify_demo Mcp.handler_demo
                           Mcp.env_key (Mcp.request_with [])
                           "k-123" eq_refl Hne (or_introl eq_refl)))
             Hwrong).
Defined.

(** X15: the Authorization header comes first. With MCP_API_KEY configured,
    when the Authorization header, once its first [Bearer ] is removed, is
    not empty and is not the key, the request is rejected and answered 401
    even if its x-api-key header is the key. *)
Theorem X15_authorization_takes_precedence
    JSON_stringify handler env request key authHeader :
  env !! "MCP_API_KEY" = Some key ->
  key <> "" ->
  Mcp.headers_get "authorization" request = Some authHeader ->
  Mcp.String_replace authHeader "Bearer " "" <> "" ->
  Mcp.String_replace authHeader "Bearer " "" <> key ->
  Mcp.authenticateRequest env request = false /\
  Mcp.authenticatedHandler JSON_stringify handler env request =
  Mcp.unauthorized JSON_stringify.
Proof.
  intros Hkey Hnonempty Hauth Hne Hwrong.
  assert (Ha : Mcp.authenticateRequest env request = false).
  { rewrite (authenticate_configured env request key Hkey Hnonempty), Hauth.
    cbn [fmap option_fmap option_map].
    rewrite (truthy_Some_true _ Hne).
    destruct (String.eqb_spec (Mcp.String_replace authHeader "Bearer " "") key);
      [contradiction | reflexivity]. }
  split; [exact Ha | apply unauthenticated_401, Ha].
Qed.

Lemma X15_authorization_takes_precedence_witness :
  Mcp.authenticateRequest Mcp.env_key
    (Mcp.request_with [ ("authorization", "Basic dXNlcg=="); ("x-api-key", "k-123") ])
  = false.
Proof.
  assert (Hne : "k-123" <> "") by discriminate.
  assert (H1 : Mcp.String_replace "Basic dXNlcg==" "Bearer " "" <> "") by discriminate.
  assert (H2 : Mcp.String_replace "Basic dXNlcg==" "Bearer " "" <> "k-123")
    by discriminate.
  exact (proj1 (X15_authorization_takes_precedence Mcp.stringify_demo Mcp.handler_demo
                  Mcp.env_key
                  (Mcp.request_with [ ("authorization", "Basic dXNlcg==");
                                      ("x-api-key", "k-123") ])
                  "k-123" "Basic dXNlcg==" eq_refl Hne eq_refl H1 H2)).
Defined.

(** X16: the key without the scheme. With MCP_API_KEY configured and no
    [Bearer ] inside the key, a request whose Authorization header is the
    key itself is authenticated. *)
Theorem X16_bare_key_accepted env request key :
  env !! "MCP_API_KEY" = Some key ->
  key <> "" ->
  Mcp.String_includes key "Bearer " = false ->
  Mcp.headers_get "authorization" request = Some key ->
  Mcp.authenticateRequest env request = true.
Proof.
  intros Hkey Hnonempty Hinc Hauth.
  rewrite (authenticate_configured env request key Hkey Hnonempty), Hauth.
  cbn [fmap option_fmap option_map].
  rewrite (String_replace_absent key "Bearer " "" Hinc).
  rewrite (truthy_Some_true key Hnonempty). apply String.eqb_refl.
Qed.

Lemma X16_bare_key_accepted_witness :
  Mcp.authenticateRequest Mcp.env_key (Mcp.request_with [ ("authorization", "k-123") ])
  = true.
Proof.
  assert (Hne : "k-123" <> "") by discriminate.
  exact (X16_bare_key_accepted Mcp.env_key
           (Mcp.request_with [ ("authorization", "k-123") ])
           "k-123" eq_refl Hne eq_refl eq_refl).
Defined.

(** ** The tools of the Google Sheets server *)

(** X17: [append_job_row] and its configuration. Without SCRIPT_URL (unset
    or empty) the tool throws "SCRIPT_URL environment variable is not set",
    with SCRIPT_URL but without SECRET_KEY it throws the message for
    SECRET_KEY, and in both cases it calls nothing; with both it never
    throws, and makes exactly one call: a POST to SCRIPT_URL with a JSON
    content type, whose body is the serialized payload. *)
Theorem X17_append_needs_configuration JSON_stringify env network args :
  let run := Mcp.append_job_row JSON_stringify env network args in
  match truthy (env !! "SCRIPT_URL"), truthy (env !! "SECRET_KEY") with
  | false, _ =>
      run = (Throw (ThrownError "SCRIPT_URL environment variable is not set"), [])
  | true, false =>
      run = (Throw (ThrownError "SECRET_KEY environment variable is not set"), [])
  | true, true =>
      exists result scriptUrl secretKey,
        env !! "SCRIPT_URL" = Some scriptUrl /\
        env !! "SECRET_KEY" = Some secretKey /\
        run = (Normal result,
               [ {| Mcp.call_url := scriptUrl;
                    Mcp.call_method := "POST";
                    Mcp.call_headers := [ ("Content-Type", "application/json") ];
                    Mcp.call_body :=
                      Some (JSON_stringify (Mcp.payload secretKey args) None) |} ])
  end.
Proof.
  intros run. unfold run, Mcp.append_job_row.
  destruct (truthy (env !! "SCRIPT_URL")) eqn:Hu; [| reflexivity].
  destruct (truthy (env !! "SECRET_KEY")) eqn:Hs; [| reflexivity].
  cbn [negb]. unfold Mcp.append_call.
  assert (Hgo : forall result : Mcp.ToolResult,
            exists result0 scriptUrl secretKey,
              env !! "SCRIPT_URL" = Some scriptUrl /\
              env !! "SECRET_KEY" = Some secretKey /\
              (Normal result,
               [ {| Mcp.call_url := narrow (env !! "SCRIPT_URL");
                    Mcp.call_method := "POST";
                    Mcp.call_headers := [ ("Content-Type", "application/json") ];
                    Mcp.call_body :=
                      Some (JSON_stringify
                              (Mcp.payload (narrow (env !! "SECRET_KEY")) args)
                              None) |} ]) =
              (Normal result0,
               [ {| Mcp.call_url := scriptUrl;
                    Mcp.call_method := "POST";
                    Mcp.call_headers := [ ("Content-Type", "application/json") ];
                    Mcp.call_body :=
                      Some (JSON_stringify (Mcp.payload secretKey args) None) |} ])).
  { intros result. exists result.
    exists (narrow (env !! "SCRIPT_URL")), (narrow (env !! "SECRET_KEY")).
    split; [apply truthy_narrow, Hu |]. split; [apply truthy_narrow, Hs | reflexivity]. }
  destruct (network _) as [response | error]; [| apply Hgo].
  destruct (negb (Mcp.result_ok response)); [apply Hgo |].
  destruct (Mcp.result_text response); apply Hgo.
Qed.

(** X18: what [append_job_row] reports. With SCRIPT_URL and SECRET_KEY
    configured, the one text of the result is the success message followed
    by the body of the response exactly when the webhook answered 2xx and
    its body could be read; otherwise it is the failure message followed by
    the reason: the message of the error [fetch] or [text()] threw, or,
    for a non-2xx response, its status and status text (its body is not
    read). *)
Theorem X18_append_report JSON_stringify env network args scriptUrl secretKey :
  env !! "SCRIPT_URL" = Some scriptUrl ->
  scriptUrl <> "" ->
  env !! "SECRET_KEY" = Some secretKey ->
  secretKey <> "" ->
  let call := Mcp.append_call JSON_stringify scriptUrl secretKey args in
  let success := "✅ Job successfully added to Google Sheet!"
                 +:+ Mcp.nl +:+ Mcp.nl +:+ "Response: " in
  let failure := "❌ Failed to add job to Google Sheet: " in
  exists message,
    Mcp.append_job_row JSON_stringify env network args =
      (Normal {| Mcp.content := [ {| Mcp.type := "text"; Mcp.text := message |} ] |},
       [ call ]) /\
    ((exists response responseText,
        network call = Normal response /\
        Mcp.result_ok response = true /\
        Mcp.result_text response = Normal responseText /\
        message = success +:+ responseText) \/
     (exists response,
        network call = Normal response /\
        Mcp.result_ok response = false /\
        message = failure +:+ "Google Apps Script request failed: "
                  +:+ pretty (Mcp.result_status response) +:+ " "
                  +:+ Mcp.result_statusText response) \/
     (exists response error,
        network call = Normal response /\
        Mcp.result_ok response = true /\
        Mcp.result_text response = Throw error /\
        message = failure +:+ errorMessage_of "Unknown error occurred" error) \/
     (exists error,
        network call = Throw error /\
        message = failure +:+ errorMessage_of "Unknown error occurred" error)) /\
    (String.prefix success message = true <->
     exists response responseText,
       network call = Normal response /\
       Mcp.result_ok response = true /\
       Mcp.result_text response = Normal responseText).
Proof.
  intros Hu Hune Hs Hsne call success failure.
  unfold Mcp.append_job_row.
  rewrite Hu, Hs, (truthy_Some_true _ Hune), (truthy_Some_true _ Hsne).
  cbn [negb narrow default from_option id]. fold call.
  destruct (network call) as [response | error] eqn:Hn.
  - destruct (Mcp.result_ok response) eqn:Hok; cbn [negb].
    + destruct (Mcp.result_text response) as [responseText | error] eqn:Ht.
      * eexists. split; [reflexivity |]. split; [left; eauto 6 |].
        split; [eauto 6 | intros _].
        change ("✅ Job successfully added to Google Sheet!" +:+ Mcp.nl +:+ Mcp.nl
                +:+ "Response: " +:+ responseText)
          with (success +:+ responseText).
        apply prefix_append.
      * eexists. split; [reflexivity |]. split; [right; right; left; eauto 6 |].
        split; [discriminate |].
        intros (r' & t' & Hr' & _ & Ht'). congruence.
    + eexists. split; [reflexivity |]. split; [right; left; eauto 6 |].
      split; [discriminate |].
      intros (r' & t' & Hr' & Hok' & _). congruence.
  - eexists. split; [reflexivity |]. split; [right; right; right; eauto |].
    split; [discriminate |].
    intros (r' & t' & Hr' & _). congruence.
Qed.

Lemma X18_append_report_witness :
  (Mcp.append_job_row Mcp.stringify_demo Mcp.env_key Mcp.webhook_denied Mcp.job_demo).1 =
  Normal {| Mcp.content :=
              [ {| Mcp.type := "text";
                   Mcp.text := "❌ Failed to add job to Google Sheet: Google Apps Script request failed: 403 Forbidden" |} ] |}.
Proof.
  assert (H1 : "https://script.example/exec" <> "") by discriminate.
  assert (H2 : "sheet-secret" <> "") by discriminate.
  destruct (X18_append_report Mcp.stringify_demo Mcp.env_key Mcp.webhook_denied
              Mcp.job_demo "https://script.example/exec" "sheet-secret"
              eq_refl H1 eq_refl H2)
    as (message & Hrun & Hcases & _).
  rewrite Hrun. simpl.
  destruct Hcases
    as [(r & t & Hn & Hok & _)
       | [(r & Hn & Hok & ->) | [(r & e & Hn & Hok & _) | (e & Hn & _)]]].
  - injection Hn as <-. discriminate Hok.
  - injection Hn as <-. reflexivity.
  - injection Hn as <-. discriminate Hok.
  - discriminate Hn.
Defined.

(** X19: an optional field left out and an empty one are the same to
    [append_job_row]. Two calls of the tool whose arguments agree on
    company and role, and on description, date, source and jobType once
    an absent or empty value is read as the empty string, run alike: the
    same request is sent and the same result returned. *)
Theorem X19_append_optional_fields JSON_stringify env network a b :
  Mcp.company a = Mcp.company b ->
  Mcp.role a = Mcp.role b ->
  or_else (Mcp.description a) "" = or_else (Mcp.description b) "" ->
  or_else (Mcp.date a) "" = or_else (Mcp.date b) "" ->
  or_else (Mcp.source a) "" = or_else (Mcp.source b) "" ->
  or_else (Mcp.jobType a) "" = or_else (Mcp.jobType b) "" ->
  Mcp.append_job_row JSON_stringify env network a =
  Mcp.append_job_row JSON_stringify env network b /\
  forall secretKey,
    get_prop (Mcp.payload secretKey a) "description" =
      Normal (JString (or_else (Mcp.description a) "")) /\
    get_prop (Mcp.payload secretKey a) "type" =
      Normal (JString (or_else (Mcp.jobType a) "")).
Proof.
  intros Hc Hr Hd Hdate Hs Hj.
  assert (Hp : forall secretKey, Mcp.payload secretKey a = Mcp.payload secretKey b).
  { intros secretKey. unfold Mcp.payload. rewrite Hc, Hr, Hd, Hdate, Hs, Hj. reflexivity. }
  split; [| intros secretKey; split; reflexivity].
  unfold Mcp.append_job_row, Mcp.append_call. rewrite Hp. reflexivity.
Qed.

Lemma X19_append_optional_fields_witness :
  Mcp.append_job_row Mcp.stringify_demo Mcp.env_key Mcp.webhook_ok Mcp.job_demo =
  Mcp.append_job_row Mcp.stringify_demo Mcp.env_key Mcp.webhook_ok Mcp.job_demo_filled.
Proof.
  exact (proj1 (X19_append_optional_fields Mcp.stringify_demo Mcp.env_key Mcp.webhook_ok
                  Mcp.job_demo Mcp.job_demo_filled
                  eq_refl eq_refl eq_refl eq_refl eq_refl eq_refl)).
Defined.

(** X20: [test_connection] writes nothing and never throws. Without
    SCRIPT_URL it returns its message and calls nothing; with it, it makes
    exactly one call, an OPTIONS request to SCRIPT_URL with no header and
    no body (so neither the secret key nor any data is sent), and returns a
    result whatever the webhook does. *)
Theorem X20_test_connection_is_safe env network :
  exists result,
    (Mcp.test_connection env network).1 = Normal result /\
    ((truthy (env !! "SCRIPT_URL") = false /\
      (Mcp.test_connection env network).2 = []) \/
     (exists scriptUrl,
        env !! "SCRIPT_URL" = Some scriptUrl /\
        scriptUrl <> "" /\
        (Mcp.test_connection env network).2 =
          [ {| Mcp.call_url := scriptUrl;
               Mcp.call_method := "OPTIONS";
               Mcp.call_headers := [];
               Mcp.call_body := None |} ])).
Proof.
  unfold Mcp.test_connection.
  destruct (truthy (env !! "SCRIPT_URL")) eqn:Hu; cbn [negb].
  - destruct (truthy_Some _ Hu) as (scriptUrl & Hget & Hne).
    rewrite Hget. cbn [narrow default].
    destruct (network _); simpl; (eexists; split; [reflexivity | right; eauto]).
  - eexists. split; [reflexivity | left; auto].
Qed.

(** X21: [health_check] shows whether SCRIPT_URL and SECRET_KEY are set,
    not what they are. Under two environments in which each of the two
    variables is set (and not empty) in both or in neither, the tool
    returns the same result at the same time; it never throws and calls
    nothing. *)
Theorem X21_health_check_hides_values JSON_stringify env1 env2 timestamp :
  truthy (env1 !! "SCRIPT_URL") = truthy (env2 !! "SCRIPT_URL") ->
  truthy (env1 !! "SECRET_KEY") = truthy (env2 !! "SECRET_KEY") ->
  Mcp.health_check JSON_stringify env1 timestamp =
  Mcp.health_check JSON_stringify env2 timestamp /\
  (Mcp.health_check JSON_stringify env1 timestamp).2 = [] /\
  exists result, (Mcp.health_check JSON_stringify env1 timestamp).1 = Normal result.
Proof.
  intros Hu Hs. unfold Mcp.health_check. rewrite Hu, Hs.
  split; [reflexivity |]. split; [reflexivity | eexists; reflexivity].
Qed.

Lemma X21_health_check_hides_values_witness :
  Mcp.health_check Mcp.stringify_demo Mcp.env_key "2025-01-02T03:04:05.678Z" =
  Mcp.health_check Mcp.stringify_demo Mcp.env_other "2025-01-02T03:04:05.678Z".
Proof.
  exact (proj1 (X21_health_check_hides_values Mcp.stringify_demo Mcp.env_key
                  Mcp.env_other "2025-01-02T03:04:05.678Z" eq_refl eq_refl)).
Defined.
